(** * compas_robots: the tool model ([compas_robots/model/tool.py])

    A shallow embedding of [ToolModel] and of the objects it works on.
    Python objects live in a store of mutable objects addressed by
    references; methods are computations in a state-and-exception monad
    over that store.  The geometry library ([compas.geometry]) is taken
    as an interface with its algebraic contract in exact arithmetic. *)

From Stdlib Require Import QArith Qcanon.
From stdpp Require Import gmap strings list fin_maps.

Local Open Scope string_scope.

(** ** Serialised data

    The values a data dictionary holds (JSON-like): [None], strings,
    numbers, lists and dictionaries with string keys. *)

#[warnings="-register-all"]
Inductive value : Type :=
  | VNone
  | VStr (s : string)
  | VNum (q : Qc)
  | VList (l : list value)
  | VDict (d : gmap string value).

(** Python truth value of a serialised value. *)
Definition truthy (v : value) : bool :=
  match v with
  | VNone => false
  | VStr s => negb (String.eqb s "")
  | VNum q => negb (Qc_eq_bool q 0)
  | VList l => negb (Nat.eqb (length l) 0)
  | VDict d => negb (Nat.eqb (size d) 0)
  end.

(** [x or y] *)
Definition py_or (x y : value) : value := if truthy x then x else y.

(** ** Exceptions and results *)

Inductive exn : Type :=
  | KeyError (key : string)
  | AttributeError (attr : string)
  | TypeError.

Inductive result (A : Type) : Type :=
  | Ok (a : A)
  | Raise (e : exn).
Arguments Ok {A} a.
Arguments Raise {A} e.


(** ** The geometry library

    [Frame] and [Transformation] of [compas.geometry], with the
    operations [tool.py] calls. *)

Class Geometry : Type := {
  Frame : Type;
  Transformation : Type;
  (** [Frame.worldXY()] *)
  Frame_worldXY : Frame;
  (** [Frame.from_transformation(T)] *)
  Frame_from_transformation : Transformation -> Frame;
  (** [Transformation()] *)
  Transformation_identity : Transformation;
  (** [Transformation.from_frame(f)] *)
  Transformation_from_frame : Frame -> Transformation;
  (** [Transformation.from_frame_to_frame(frame_from, frame_to)] *)
  Transformation_from_frame_to_frame : Frame -> Frame -> Transformation;
  (** [T1 * T2] *)
  Transformation_mul : Transformation -> Transformation -> Transformation;
  (** [f.data] *)
  Frame_data : Frame -> value;
  (** [Frame.from_data(d)] *)
  Frame_from_data : value -> result Frame;
  (** a frame with orthonormal axes *)
  valid_frame : Frame -> Prop;
  (** a transformation that is a rotation followed by a translation *)
  rigid : Transformation -> Prop;
}.

(** The contract of the library in exact arithmetic: transformations
    under [*] form a monoid, a frame-to-frame transformation is undone
    by the one in the reverse direction, and frames and rigid
    transformations are two presentations of the same thing. *)
Class GeometryLaws (G : Geometry) : Prop := {
  valid_worldXY : valid_frame Frame_worldXY;
  mul_assoc : forall A B C,
    Transformation_mul (Transformation_mul A B) C
    = Transformation_mul A (Transformation_mul B C);
  mul_identity_r : forall A,
    Transformation_mul A Transformation_identity = A;
  frame_to_frame_inverse : forall a b,
    valid_frame a -> valid_frame b ->
    Transformation_mul (Transformation_from_frame_to_frame a b)
                       (Transformation_from_frame_to_frame b a)
    = Transformation_identity;
  rigid_from_frame : forall f,
    valid_frame f -> rigid (Transformation_from_frame f);
  rigid_from_frame_to_frame : forall a b,
    valid_frame a -> valid_frame b ->
    rigid (Transformation_from_frame_to_frame a b);
  rigid_mul : forall A B,
    rigid A -> rigid B -> rigid (Transformation_mul A B);
  frame_of_transformation_of_frame : forall f,
    valid_frame f ->
    Frame_from_transformation (Transformation_from_frame f) = f;
  transformation_of_frame_of_transformation : forall A,
    rigid A ->
    Transformation_from_frame (Frame_from_transformation A) = A;
  frame_data_roundtrip : forall f,
    valid_frame f -> Frame_from_data (Frame_data f) = Ok f;
}.

(** ** The object store *)

Definition loc : Type := positive.

Inductive class : Type := RobotModelClass | ToolModelClass.

(** A link of the kinematic tree: its name and the meshes it shows and
    collides with, held by reference. *)
Record Link : Type := mkLink {
  l_name : string;
  l_visual : list loc;
  l_collision : list loc;
}.

Section Store.
Context {G : Geometry}.

(** The attributes of a model object.  [frame] and [link_name] are the
    attributes [ToolModel] adds; they are [None] while unset. *)
Record Model : Type := mkModel {
  name : value;
  links : list Link;
  joints : list value;
  frame : option Frame;
  link_name : option value;
}.

Inductive obj : Type :=
  | OMesh (content : value)
  | ODict (d : gmap string value)
  | OModel (c : class) (m : Model).

(** Computations over the store that may raise. *)
Definition M (A : Type) : Type := gmap loc obj -> result A * gmap loc obj.

Definition ret {A} (a : A) : M A := fun h => (Ok a, h).

Definition bind {A B} (m : M A) (k : A -> M B) : M B :=
  fun h => match m h with
           | (Ok a, h') => k a h'
           | (Raise e, h') => (Raise e, h')
           end.

Definition raise {A} (e : exn) : M A := fun h => (Raise e, h).

Definition lift {A} (r : result A) : M A := fun h => (r, h).

End Store.

Abbreviation store := (gmap loc obj).

Declare Scope py_scope.
Delimit Scope py_scope with py.
Notation "x <- m ;; k" := (bind m (fun x => k))
  (at level 100, m at next level, right associativity) : py_scope.
Notation "m ;; k" := (bind m (fun _ => k))
  (at level 100, right associativity) : py_scope.
Local Open Scope py_scope.

Section StoreOps.
Context {G : Geometry}.

Fixpoint mapM {A B} (f : A -> M B) (l : list A) : M (list B) :=
  match l with
  | [] => ret []
  | a :: l' => b <- f a ;; bs <- mapM f l' ;; ret (b :: bs)
  end.

(** A new object at a reference the store does not use yet. *)
Definition alloc (o : obj) : M loc :=
  fun h => let l := fresh (dom h) in (Ok l, <[l := o]> h).

Definition read_model (l : loc) : M Model :=
  fun h => match h !! l with
           | Some (OModel _ m) => (Ok m, h)
           | _ => (Raise TypeError, h)
           end.

Definition update_model (l : loc) (f : Model -> Model) : M unit :=
  fun h => match h !! l with
           | Some (OModel c m) => (Ok tt, <[l := OModel c (f m)]> h)
           | _ => (Raise TypeError, h)
           end.

Definition read_mesh (l : loc) : M value :=
  fun h => match h !! l with
           | Some (OMesh v) => (Ok v, h)
           | _ => (Raise TypeError, h)
           end.

Definition read_dict (l : loc) : M (gmap string value) :=
  fun h => match h !! l with
           | Some (ODict d) => (Ok d, h)
           | _ => (Raise TypeError, h)
           end.

(** [d[k]] *)
Definition dict_getitem (l : loc) (k : string) : M value :=
  d <- read_dict l ;;
  match d !! k with
  | Some v => ret v
  | None => raise (KeyError k)
  end.

(** [d[k] = v] *)
Definition dict_setitem (l : loc) (k : string) (v : value) : M unit :=
  fun h => match h !! l with
           | Some (ODict d) => (Ok tt, <[l := ODict (<[k := v]> d)]> h)
           | _ => (Raise TypeError, h)
           end.

(** [k in d] *)
Definition dict_contains (l : loc) (k : string) : M bool :=
  d <- read_dict l ;;
  ret (bool_decide (is_Some (d !! k))).

End StoreOps.

(** ** The kinematic tree model ([RobotModel], the base class) *)

Module RobotModel.
Section RobotModel.
Context {G : Geometry}.

(** The base class [RobotModel] is defined in [robot.py].  The spec
    describes it as a generic tree of named links and joints with
    serialization support, whose serialised form is a dictionary that is
    recomputed from the current state at every access and from which an
    independent instance is rebuilt. *)

(** Modelled from the spec: the attributes of a model object before
    [RobotModel.__init__] has run. *)
Definition blank : Model :=
  {| name := VNone; links := []; joints := []; frame := None; link_name := None |}.

(** Modelled from the spec: [RobotModel.__init__(self, name)], which
    initialises the tree with [name]. *)
Definition init (self : loc) (nm : value) : M unit :=
  update_model self (fun m =>
    {| name := nm; links := []; joints := [];
       frame := frame m; link_name := link_name m |}).

(** Modelled from the spec: [RobotModel.add_link(self, name,
    visual_mesh=..., collision_mesh=...)], which adds one link carrying
    the two meshes. *)
Definition add_link (self : loc) (nm : string) (visual_mesh collision_mesh : loc)
  : M unit :=
  update_model self (fun m =>
    {| name := name m;
       links := links m ++ [mkLink nm [visual_mesh] [collision_mesh]];
       joints := joints m; frame := frame m; link_name := link_name m |}).

(** Modelled from the spec: [RobotModel._rebuild_tree(self)], which
    rebuilds the internal indices of the tree; links, joints and name
    stay as they are. *)
Definition rebuild_tree (self : loc) : M unit :=
  _ <- read_model self ;; ret tt.

(** Modelled from the spec: [RobotModel._create(self, self.root, T)],
    which recomputes forward kinematics from the root transformation
    [T]; links, joints and name stay as they are. *)
Definition create (self : loc) (T : Transformation) : M unit :=
  _ <- read_model self ;; ret tt.

(** Modelled from the spec: the serialised form of a link, its name and
    the content of its meshes. *)
Definition link_dict (nm : string) (vs cs : list value) : gmap string value :=
  <["name" := VStr nm]> (<["visual" := VList vs]> (<["collision" := VList cs]> ∅)).

(** Modelled from the spec: serialising a link reads its meshes. *)
Definition link_to_data (l : Link) : M value :=
  vs <- mapM read_mesh (l_visual l) ;;
  cs <- mapM read_mesh (l_collision l) ;;
  ret (VDict (link_dict (l_name l) vs cs)).

(** Modelled from the spec: a mesh rebuilt from its content is a new
    object. *)
Definition new_mesh (v : value) : M loc := alloc (OMesh v).

(** Modelled from the spec: a link rebuilt from its serialised form,
    with meshes of its own. *)
Definition link_from_data (v : value) : M Link :=
  match v with
  | VDict d =>
      match d !! "name", d !! "visual", d !! "collision" with
      | Some (VStr nm), Some (VList vs), Some (VList cs) =>
          vl <- mapM new_mesh vs ;;
          cl <- mapM new_mesh cs ;;
          ret (mkLink nm vl cl)
      | _, _, _ => raise TypeError
      end
  | _ => raise TypeError
  end.

(** Modelled from the spec: the serialised form of a tree, with the
    keys ["name"], ["links"] and ["joints"]. *)
Definition tree_dict (nm : value) (ls js : list value) : gmap string value :=
  <["name" := nm]> (<["links" := VList ls]> (<["joints" := VList js]> ∅)).

(** Modelled from the spec: the [data] property of [RobotModel], a new
    dictionary at every access. *)
Definition data (self : loc) : M loc :=
  m <- read_model self ;;
  ls <- mapM link_to_data (links m) ;;
  alloc (ODict (tree_dict (name m) ls (joints m))).

(** Modelled from the spec: a list-valued entry of the dictionary,
    empty when the key is missing. *)
Definition get_list (d : gmap string value) (k : string) : M (list value) :=
  match d !! k with
  | None => ret []
  | Some (VList l) => ret l
  | Some _ => raise TypeError
  end.

(** Modelled from the spec: [RobotModel.from_data(data)] called on class
    [cls], a new instance of [cls] with the tree rebuilt from the
    dictionary.  A missing name is tolerated: the name is then [None]. *)
Definition from_data (cls : class) (data : loc) : M loc :=
  d <- read_dict data ;;
  ls <- get_list d "links" ;;
  js <- get_list d "joints" ;;
  lks <- mapM link_from_data ls ;;
  alloc (OModel cls
    {| name := default VNone (d !! "name"); links := lks; joints := js;
       frame := None; link_name := None |}).

End RobotModel.
End RobotModel.

(** ** The tool model *)

Module ToolModel.
Section ToolModel.
Context {G : Geometry}.

(** Attribute lookup [o.fget].  Only property objects carry [fget]; a
    property reached through an instance (also through [super]) is
    evaluated to its value, so what the lookup is made on here is the
    dictionary the base getter returned, and a [dict] has no such
    attribute. *)
Definition getattr_fget (o : loc) : M (loc -> M loc) :=
  raise (AttributeError "fget").

(** [self.frame] *)
Definition get_frame (self : loc) : M Frame :=
  m <- read_model self ;;
  match frame m with
  | Some f => ret f
  | None => raise (AttributeError "frame")
  end.

(** [self.link_name] *)
Definition get_link_name (self : loc) : M value :=
  m <- read_model self ;;
  match link_name m with
  | Some v => ret v
  | None => raise (AttributeError "link_name")
  end.

Definition set_name (self : loc) (v : value) : M unit :=
  update_model self (fun m =>
    {| name := v; links := links m; joints := joints m;
       frame := frame m; link_name := link_name m |}).

Definition set_frame (self : loc) (f : Frame) : M unit :=
  update_model self (fun m =>
    {| name := name m; links := links m; joints := joints m;
       frame := Some f; link_name := link_name m |}).

Definition set_link_name (self : loc) (v : value) : M unit :=
  update_model self (fun m =>
    {| name := name m; links := links m; joints := joints m;
       frame := frame m; link_name := Some v |}).

(** [collision or visual] on mesh arguments: a mesh object counts as
    true, and an omitted or [None] collision mesh is replaced by the
    very object [visual]. *)
Definition mesh_or (collision : option loc) (visual : loc) : loc :=
  match collision with
  | Some c => c
  | None => visual
  end.

(** [ToolModel.__init__(self, visual, frame_in_tool0_frame, collision,
    name, link_name)] *)
Definition init (self : loc) (visual : loc) (frame_in_tool0_frame : Frame)
    (collision : option loc) (nm : value) (ln : value) : M unit :=
  let collision := mesh_or collision visual in
  RobotModel.init self nm ;;
  RobotModel.add_link self "attached_tool_link" visual collision ;;
  RobotModel.rebuild_tree self ;;
  RobotModel.create self Transformation_identity ;;
  set_frame self frame_in_tool0_frame ;;
  set_link_name self ln.

(** [ToolModel(visual, frame, collision=None, name="attached_tool",
    link_name=None)]: an omitted argument is [None] here and takes its
    default. *)
Definition new (visual : loc) (frame_in_tool0_frame : Frame)
    (collision : option loc) (nm : option value) (ln : option value) : M loc :=
  self <- alloc (OModel ToolModelClass RobotModel.blank) ;;
  init self visual frame_in_tool0_frame collision
       (default (VStr "attached_tool") nm) (default VNone ln) ;;
  ret self.

Definition dtype (self : loc) : M string := ret "compas_robots/ToolModel".

(** Lines 90 to 92 of [data]: the two entries written into the
    dictionary [data]. *)
Definition data_entries (self : loc) (data : loc) : M loc :=
  f <- get_frame self ;;
  dict_setitem data "frame" (Frame_data f) ;;
  ln <- get_link_name self ;;
  dict_setitem data "link_name" ln ;;
  ret data.

(** The [data] property. *)
Definition data (self : loc) : M loc :=
  d <- RobotModel.data self ;;
  fget <- getattr_fget d ;;
  data <- fget self ;;
  data_entries self data.

(** [ToolModel.from_data(data)] *)
Definition from_data (cls : class) (data : loc) : M loc :=
  tool <- RobotModel.from_data cls data ;;
  m <- read_model tool ;;
  set_name tool (py_or (name m) (VStr "attached_tool")) ;;
  fd <- dict_getitem data "frame" ;;
  f <- lift (Frame_from_data fd) ;;
  set_frame tool f ;;
  has <- dict_contains data "link_name" ;;
  ln <- (if has : bool then dict_getitem data "link_name" else ret VNone) ;;
  set_link_name tool ln ;;
  ret tool.

(** [robot.data], dispatched on the class of [robot]. *)
Definition data_of (robot : loc) : M loc :=
  fun h => match h !! robot with
           | Some (OModel ToolModelClass _) => data robot h
           | _ => RobotModel.data robot h
           end.

(** [ToolModel.from_robot_model(robot, frame_in_tool0_frame, link_name)] *)
Definition from_robot_model (cls : class) (robot : loc)
    (frame_in_tool0_frame : Frame) (ln : value) : M loc :=
  data <- data_of robot ;;
  dict_setitem data "frame" (Frame_data frame_in_tool0_frame) ;;
  dict_setitem data "link_name" ln ;;
  from_data cls data.

Definition convert (Te : Transformation) (f : Frame) : Frame :=
  Frame_from_transformation (Transformation_mul (Transformation_from_frame f) Te).

Definition from_tcf_to_t0cf (self : loc) (frames_tcf : list Frame) : M (list Frame) :=
  sf <- get_frame self ;;
  let Te := Transformation_from_frame_to_frame sf Frame_worldXY in
  ret (map (convert Te) frames_tcf).

Definition from_t0cf_to_tcf (self : loc) (frames_t0cf : list Frame) : M (list Frame) :=
  sf <- get_frame self ;;
  let Te := Transformation_from_frame_to_frame Frame_worldXY sf in
  ret (map (convert Te) frames_t0cf).

End ToolModel.
End ToolModel.

(** ** What is observed of a store *)

Section Observe.
Context {G : Geometry}.

(** the serialised form of a list of links, read off a store *)
Definition links_data (h : store) (ls : list Link) : result (list value) :=
  fst (mapM RobotModel.link_to_data ls h).

(** the model object at a reference *)
Definition model_at (h : store) (l : loc) : option Model :=
  match h !! l with
  | Some (OModel _ m) => Some m
  | _ => None
  end.

(** the result of a computation, and the store it leaves *)
Definition result_of {A} (m : M A) (h : store) : result A := fst (m h).
Definition store_after {A} (m : M A) (h : store) : store := snd (m h).

(** computations that only read *)
Definition read_only {A B} (f : A -> M B) : Prop :=
  forall a h, snd (f a h) = h.

(** computations whose result stands when the store grows *)
Definition stable {A B} (f : A -> M B) : Prop :=
  forall a b (h h' : store), h ⊆ h' -> f a h = (Ok b, h) -> f a h' = (Ok b, h').

(** computations that only add objects to the store *)
Definition extending {A B} (f : A -> M B) : Prop :=
  forall a b (h h' : store), f a h = (Ok b, h') -> h ⊆ h'.

End Observe.

(** ** The geometry library in exact arithmetic

    Vectors and matrices over the rationals.  A transformation matrix is
    kept by its three axis columns and its translation column: the
    fourth row of every matrix that arises from frames is (0, 0, 0, 1). *)

Module Exact.

Local Open Scope Qc_scope.

Record vec : Type := mkVec { vx : Qc; vy : Qc; vz : Qc }.

Record frame : Type := mkFrame { point : vec; xaxis : vec; yaxis : vec }.

Record matrix : Type := mkMatrix { cx : vec; cy : vec; cz : vec; ct : vec }.

Definition dot (u v : vec) : Qc := vx u * vx v + vy u * vy v + vz u * vz v.

Definition cross (u v : vec) : vec :=
  mkVec (vy u * vz v - vz u * vy v)
        (vz u * vx v - vx u * vz v)
        (vx u * vy v - vy u * vx v).

Definition add (u v : vec) : vec := mkVec (vx u + vx v) (vy u + vy v) (vz u + vz v).

Definition scale (k : Qc) (u : vec) : vec := mkVec (k * vx u) (k * vy u) (k * vz u).

(** the axis part of [A] applied to [u] *)
Definition apply (A : matrix) (u : vec) : vec :=
  add (scale (vx u) (cx A)) (add (scale (vy u) (cy A)) (scale (vz u) (cz A))).

Definition zaxis (f : frame) : vec := cross (xaxis f) (yaxis f).

Definition worldXY : frame := mkFrame (mkVec 0 0 0) (mkVec 1 0 0) (mkVec 0 1 0).

Definition identity : matrix :=
  mkMatrix (mkVec 1 0 0) (mkVec 0 1 0) (mkVec 0 0 1) (mkVec 0 0 0).

(** [matrix_from_frame] *)
Definition from_frame (f : frame) : matrix :=
  mkMatrix (xaxis f) (yaxis f) (zaxis f) (point f).

(** [multiply_matrices] *)
Definition mul (A B : matrix) : matrix :=
  mkMatrix (apply A (cx B)) (apply A (cy B)) (apply A (cz B))
           (add (apply A (ct B)) (ct A)).

Definition det (A : matrix) : Qc := dot (cross (cx A) (cy A)) (cz A).

(** [matrix_inverse]: the adjugate over the determinant. *)
Definition inverse (A : matrix) : matrix :=
  let d := det A in
  let r1 := scale (/ d) (cross (cy A) (cz A)) in
  let r2 := scale (/ d) (cross (cz A) (cx A)) in
  let r3 := scale (/ d) (cross (cx A) (cy A)) in
  mkMatrix (mkVec (vx r1) (vx r2) (vx r3))
           (mkVec (vy r1) (vy r2) (vy r3))
           (mkVec (vz r1) (vz r2) (vz r3))
           (mkVec (- dot r1 (ct A)) (- dot r2 (ct A)) (- dot r3 (ct A))).

Definition from_frame_to_frame (frame_from frame_to : frame) : matrix :=
  mul (from_frame frame_to) (inverse (from_frame frame_from)).

(** [Frame.from_transformation]: the translation and the first two
    basis vectors of the transformation. *)
Definition from_transformation (A : matrix) : frame :=
  mkFrame (ct A) (cx A) (cy A).

Definition orthonormal (f : frame) : Prop :=
  dot (xaxis f) (xaxis f) = 1 /\ dot (yaxis f) (yaxis f) = 1
  /\ dot (xaxis f) (yaxis f) = 0.

Definition rotation (A : matrix) : Prop :=
  orthonormal (from_transformation A) /\ cz A = cross (cx A) (cy A).

Definition vec_data (u : vec) : value := VList [VNum (vx u); VNum (vy u); VNum (vz u)].

Definition vec_from_data (v : value) : result vec :=
  match v with
  | VList [VNum a; VNum b; VNum c] => Ok (mkVec a b c)
  | _ => Raise TypeError
  end.

Definition frame_dict (p x y : value) : gmap string value :=
  <["point" := p]> (<["xaxis" := x]> (<["yaxis" := y]> ∅)).

Definition frame_data (f : frame) : value :=
  VDict (frame_dict (vec_data (point f)) (vec_data (xaxis f)) (vec_data (yaxis f))).

Definition frame_from_data (v : value) : result frame :=
  match v with
  | VDict d =>
      match d !! "point", d !! "xaxis", d !! "yaxis" with
      | Some p, Some x, Some y =>
          match vec_from_data p, vec_from_data x, vec_from_data y with
          | Ok p, Ok x, Ok y => Ok (mkFrame p x y)
          | _, _, _ => Raise TypeError
          end
      | None, _, _ => Raise (KeyError "point")
      | _, None, _ => Raise (KeyError "xaxis")
      | _, _, None => Raise (KeyError "yaxis")
      end
  | _ => Raise TypeError
  end.

#[export] Instance geometry : Geometry := {|
  Frame := frame;
  Transformation := matrix;
  Frame_worldXY := worldXY;
  Frame_from_transformation := from_transformation;
  Transformation_identity := identity;
  Transformation_from_frame := from_frame;
  Transformation_from_frame_to_frame := from_frame_to_frame;
  Transformation_mul := mul;
  Frame_data := frame_data;
  Frame_from_data := frame_from_data;
  valid_frame := orthonormal;
  rigid := rotation;
|}.

End Exact.

(** ** Sample objects

    The tool of the docstrings, a frame with rational axes, and a few
    small stores. *)

Module Sample.
#[local] Existing Instance Exact.geometry.

Definition q (n : Z) (d : positive) : Qc := Q2Qc (n # d).

(** [Frame([0.14, 0, 0], [0, 1, 0], [0, 0, 1])] *)
Definition tool_frame : Exact.frame :=
  Exact.mkFrame (Exact.mkVec (q 7 50) (q 0 1) (q 0 1))
          (Exact.mkVec (q 0 1) (q 1 1) (q 0 1))
          (Exact.mkVec (q 0 1) (q 0 1) (q 1 1)).

(** a frame at (1, 2, 3) turned about the z axis *)
Definition turned_frame : Exact.frame :=
  Exact.mkFrame (Exact.mkVec (q 1 1) (q 2 1) (q 3 1))
          (Exact.mkVec (q 3 5) (q 4 5) (q 0 1))
          (Exact.mkVec (q (-4) 5) (q 3 5) (q 0 1)).

Definition mesh : loc := 1%positive.

(** a store holding one mesh *)
Definition mesh_store : store := {[ mesh := OMesh (VStr "cone") ]}.

(** a robot model with one link and one joint *)
Definition robot : loc := 2%positive.

Definition robot_model : Model :=
  {| name := VStr "robot"; links := [mkLink "base" [mesh] [mesh]];
     joints := [VStr "joint"]; frame := None; link_name := None |}.

Definition robot_store : store :=
  <[ robot := OModel RobotModelClass robot_model ]> mesh_store.

(** a tool in a store, its name the empty string *)
Definition tool : loc := 2%positive.

Definition tool_model : Model :=
  {| name := VStr ""; links := [mkLink "attached_tool_link" [mesh] [mesh]];
     joints := []; frame := Some tool_frame; link_name := Some VNone |}.

Definition tool_store : store :=
  <[ tool := OModel ToolModelClass tool_model ]> mesh_store.

(** dictionaries: one with a frame only, one with nothing *)
Definition dict : loc := 1%positive.

Definition frame_only_store : store :=
  {[ dict := ODict {[ "frame" := Exact.frame_data tool_frame ]} ]}.


End Sample.

(** * Properties *)

(** ** The exact geometry meets the contract *)

Module ExactLaws.
Import Exact.

Local Open Scope Qc_scope.

Lemma vec_eq u v : vx u = vx v -> vy u = vy v -> vz u = vz v -> u = v.
Proof. destruct u, v; simpl; intros; subst; reflexivity. Qed.

Ltac by_components :=
  apply vec_eq; unfold dot, cross, add, scale, apply; simpl; ring.

Lemma lagrange u v :
  dot (cross u v) (cross u v) = dot u u * dot v v - dot u v * dot u v.
Proof. unfold dot, cross; simpl; ring. Qed.

Lemma dot_cross_l u v : dot u (cross u v) = 0.
Proof. unfold dot, cross; simpl; ring. Qed.

Lemma dot_cross_r u v : dot v (cross u v) = 0.
Proof. unfold dot, cross; simpl; ring. Qed.

Lemma dot_comm u v : dot u v = dot v u.
Proof. unfold dot; ring. Qed.

(** the triple products a x (b x c) and (a x b) x c *)
Lemma cross_cross_r a b c :
  cross a (cross b c) = add (scale (dot a c) b) (scale (- dot a b) c).
Proof. by_components. Qed.

Lemma cross_cross_l a b c :
  cross (cross a b) c = add (scale (dot a c) b) (scale (- dot b c) a).
Proof. by_components. Qed.

Lemma scale_1 u : scale 1 u = u.
Proof. by_components. Qed.

Lemma add_scale_0_r u v : add u (scale (- 0) v) = u.
Proof. by_components. Qed.

Section Rotation.
Variable A : matrix.
Hypothesis HA : rotation A.

Lemma rot_xx : dot (cx A) (cx A) = 1.
Proof. apply HA. Qed.

Lemma rot_yy : dot (cy A) (cy A) = 1.
Proof. apply HA. Qed.

Lemma rot_xy : dot (cx A) (cy A) = 0.
Proof. apply HA. Qed.

Lemma rot_z : cz A = cross (cx A) (cy A).
Proof. apply HA. Qed.

Lemma rot_zz : dot (cz A) (cz A) = 1.
Proof. rewrite rot_z, lagrange, rot_xx, rot_yy, rot_xy. ring. Qed.

Lemma rot_xz : dot (cx A) (cz A) = 0.
Proof. rewrite rot_z. apply dot_cross_l. Qed.

Lemma rot_yz : dot (cy A) (cz A) = 0.
Proof. rewrite rot_z. apply dot_cross_r. Qed.

Lemma rot_det : det A = 1.
Proof. unfold det. rewrite <- rot_z. apply rot_zz. Qed.

Lemma rot_cross_yz : cross (cy A) (cz A) = cx A.
Proof.
  rewrite rot_z, cross_cross_r, rot_yy, (dot_comm (cy A) (cx A)), rot_xy.
  rewrite scale_1. apply add_scale_0_r.
Qed.

Lemma rot_cross_zx : cross (cz A) (cx A) = cy A.
Proof.
  rewrite rot_z, cross_cross_l, rot_xx, (dot_comm (cy A) (cx A)), rot_xy.
  rewrite scale_1. apply add_scale_0_r.
Qed.

(** the axis part preserves dot products *)
Lemma rot_dot u v : dot (apply A u) (apply A v) = dot u v.
Proof.
  transitivity
    (vx u * vx v * dot (cx A) (cx A) + vy u * vy v * dot (cy A) (cy A)
     + vz u * vz v * dot (cz A) (cz A)
     + (vx u * vy v + vy u * vx v) * dot (cx A) (cy A)
     + (vx u * vz v + vz u * vx v) * dot (cx A) (cz A)
     + (vy u * vz v + vz u * vy v) * dot (cy A) (cz A)).
  - unfold dot, apply, add, scale; simpl; ring.
  - rewrite rot_xx, rot_yy, rot_zz, rot_xy, rot_xz, rot_yz. unfold dot; ring.
Qed.

(** and cross products *)
Lemma rot_cross u v : cross (apply A u) (apply A v) = apply A (cross u v).
Proof.
  transitivity
    (add (scale (vx (cross u v)) (cross (cy A) (cz A)))
       (add (scale (vy (cross u v)) (cross (cz A) (cx A)))
            (scale (vz (cross u v)) (cross (cx A) (cy A))))).
  - by_components.
  - rewrite rot_cross_yz, rot_cross_zx, <- rot_z. reflexivity.
Qed.

End Rotation.
Lemma mat_eq A B :
  cx A = cx B -> cy A = cy B -> cz A = cz B -> ct A = ct B -> A = B.
Proof. destruct A, B; simpl; intros; subst; reflexivity. Qed.

Ltac by_columns :=
  apply mat_eq; apply vec_eq;
  unfold mul, dot, cross, add, scale, apply; simpl; ring.

Lemma exact_mul_assoc A B C : mul (mul A B) C = mul A (mul B C).
Proof. by_columns. Qed.

Lemma exact_mul_identity_r A : mul A identity = A.
Proof. by_columns. Qed.

Lemma exact_mul_identity_l A : mul identity A = A.
Proof. by_columns. Qed.

(** the inverse of a rotation is its transpose *)
Lemma rot_inverse A :
  rotation A ->
  inverse A =
  mkMatrix (mkVec (vx (cx A)) (vx (cy A)) (vx (cz A)))
           (mkVec (vy (cx A)) (vy (cy A)) (vy (cz A)))
           (mkVec (vz (cx A)) (vz (cy A)) (vz (cz A)))
           (mkVec (- dot (cx A) (ct A)) (- dot (cy A) (ct A)) (- dot (cz A) (ct A))).
Proof.
  intros HA. unfold inverse. cbv zeta.
  rewrite (rot_det A HA), (rot_cross_yz A HA), (rot_cross_zx A HA), <- (rot_z A HA).
  replace (/ 1) with 1 by (apply Qc_is_canon; reflexivity).
  rewrite !scale_1. reflexivity.
Qed.

Lemma rot_mul_inverse_r A : rotation A -> mul A (inverse A) = identity.
Proof.
  intros HA.
  pose proof (rot_det A HA) as Hd.
  assert (Hn : det A <> 0) by (rewrite Hd; discriminate).
  unfold det, dot, cross in Hn; simpl in Hn.
  apply mat_eq; apply vec_eq;
    unfold inverse, mul, identity, det, dot, cross, add, scale, apply; simpl;
    field; exact Hn.
Qed.

Lemma rot_mul_inverse_l A : rotation A -> mul (inverse A) A = identity.
Proof.
  intros HA.
  pose proof (rot_det A HA) as Hd.
  assert (Hn : det A <> 0) by (rewrite Hd; discriminate).
  unfold det, dot, cross in Hn; simpl in Hn.
  apply mat_eq; apply vec_eq;
    unfold inverse, mul, identity, det, dot, cross, add, scale, apply; simpl;
    field; exact Hn.
Qed.

Lemma rotation_from_frame f : orthonormal f -> rotation (from_frame f).
Proof. intros Hf. split; [exact Hf | reflexivity]. Qed.

Lemma rotation_mul A B : rotation A -> rotation B -> rotation (mul A B).
Proof.
  intros HA HB. split; [split; [|split] |]; simpl.
  - rewrite (rot_dot A HA). apply (rot_xx B HB).
  - rewrite (rot_dot A HA). apply (rot_yy B HB).
  - rewrite (rot_dot A HA). apply (rot_xy B HB).
  - rewrite (rot_cross A HA), <- (rot_z B HB). reflexivity.
Qed.

Lemma rotation_inverse A : rotation A -> rotation (inverse A).
Proof.
  intros HA.
  pose proof (rot_mul_inverse_r A HA) as Hr.
  rewrite (rot_inverse A HA) in Hr |- *.
  assert (Hx := f_equal cx Hr). assert (Hy := f_equal cy Hr).
  simpl in Hx, Hy.
  assert (Hxx := f_equal vx Hx). assert (Hxy := f_equal vy Hx).
  assert (Hyy := f_equal vy Hy).
  unfold apply, add, scale in Hxx, Hxy, Hyy; simpl in Hxx, Hxy, Hyy.
  split; [split; [|split] |]; simpl.
  - rewrite <- Hxx. unfold dot; simpl; ring.
  - rewrite <- Hyy. unfold dot; simpl; ring.
  - rewrite <- Hxy. unfold dot; simpl; ring.
  - apply vec_eq; simpl.
    + rewrite <- (rot_cross_yz A HA) at 1. unfold cross; simpl; ring.
    + rewrite <- (rot_cross_zx A HA) at 1. unfold cross; simpl; ring.
    + rewrite (rot_z A HA) at 1. unfold cross; simpl; ring.
Qed.

Lemma rotation_from_frame_to_frame a b :
  orthonormal a -> orthonormal b -> rotation (from_frame_to_frame a b).
Proof.
  intros Ha Hb. apply rotation_mul.
  - apply rotation_from_frame, Hb.
  - apply rotation_inverse, rotation_from_frame, Ha.
Qed.

Lemma exact_frame_to_frame_inverse a b :
  orthonormal a -> orthonormal b ->
  mul (from_frame_to_frame a b) (from_frame_to_frame b a) = identity.
Proof.
  intros Ha Hb. unfold from_frame_to_frame.
  rewrite exact_mul_assoc, <- (exact_mul_assoc (inverse (from_frame a))).
  rewrite (rot_mul_inverse_l _ (rotation_from_frame a Ha)), exact_mul_identity_l.
  apply rot_mul_inverse_r, rotation_from_frame, Hb.
Qed.

Lemma exact_frame_of_transformation f : from_transformation (from_frame f) = f.
Proof. destruct f; reflexivity. Qed.

Lemma exact_transformation_of_frame A :
  rotation A -> from_frame (from_transformation A) = A.
Proof.
  intros HA. pose proof (rot_z A HA) as Hz.
  destruct A as [x y z t]. simpl in Hz. subst z. reflexivity.
Qed.

Lemma vec_data_roundtrip u : vec_from_data (vec_data u) = Ok u.
Proof. destruct u; reflexivity. Qed.

Lemma exact_frame_data_roundtrip f : frame_from_data (frame_data f) = Ok f.
Proof.
  unfold frame_from_data, frame_data, frame_dict.
  rewrite lookup_insert_eq.
  rewrite lookup_insert_ne, lookup_insert_eq by discriminate.
  rewrite !lookup_insert_ne, lookup_insert_eq by discriminate.
  rewrite !vec_data_roundtrip. destruct f; reflexivity.
Qed.

Lemma orthonormal_worldXY : orthonormal worldXY.
Proof. repeat split; apply Qc_is_canon; reflexivity. Qed.

(** The exact library is an instance of the contract. *)
Lemma laws : GeometryLaws geometry.
Proof.
  split; simpl.
  - apply orthonormal_worldXY.
  - apply exact_mul_assoc.
  - apply exact_mul_identity_r.
  - apply exact_frame_to_frame_inverse.
  - apply rotation_from_frame.
  - apply rotation_from_frame_to_frame.
  - apply rotation_mul.
  - intros f _. apply exact_frame_of_transformation.
  - apply exact_transformation_of_frame.
  - intros f _. apply exact_frame_data_roundtrip.
Qed.

End ExactLaws.

(** ** Running computations *)

Section Run.
Context {G : Geometry}.

Lemma bind_ok {A B} (m : M A) (k : A -> M B) h a h' :
  m h = (Ok a, h') -> bind m k h = k a h'.
Proof. unfold bind. intros ->. reflexivity. Qed.

Lemma bind_raise {A B} (m : M A) (k : A -> M B) h e h' :
  m h = (Raise e, h') -> bind m k h = (Raise e, h').
Proof. unfold bind. intros ->. reflexivity. Qed.

Lemma read_model_ok h l c m :
  h !! l = Some (OModel c m) -> read_model l h = (Ok m, h).
Proof. unfold read_model. intros ->. reflexivity. Qed.

Lemma update_model_ok h l c m f :
  h !! l = Some (OModel c m) ->
  update_model l f h = (Ok tt, <[l := OModel c (f m)]> h).
Proof. unfold update_model. intros ->. reflexivity. Qed.

Lemma read_dict_ok h l d :
  h !! l = Some (ODict d) -> read_dict l h = (Ok d, h).
Proof. unfold read_dict. intros ->. reflexivity. Qed.

Lemma dict_setitem_ok h l d k v :
  h !! l = Some (ODict d) ->
  dict_setitem l k v h = (Ok tt, <[l := ODict (<[k := v]> d)]> h).
Proof. unfold dict_setitem. intros ->. reflexivity. Qed.

Lemma dict_getitem_ok h l d k v :
  h !! l = Some (ODict d) -> d !! k = Some v ->
  dict_getitem l k h = (Ok v, h).
Proof.
  intros Hl Hk. unfold dict_getitem.
  rewrite (bind_ok _ _ _ _ _ (read_dict_ok _ _ _ Hl)), Hk. reflexivity.
Qed.

Lemma dict_getitem_missing h l d k :
  h !! l = Some (ODict d) -> d !! k = None ->
  dict_getitem l k h = (Raise (KeyError k), h).
Proof.
  intros Hl Hk. unfold dict_getitem.
  rewrite (bind_ok _ _ _ _ _ (read_dict_ok _ _ _ Hl)), Hk. reflexivity.
Qed.

Lemma dict_contains_ok h l d k :
  h !! l = Some (ODict d) ->
  dict_contains l k h = (Ok (bool_decide (is_Some (d !! k))), h).
Proof.
  intros Hl. unfold dict_contains.
  rewrite (bind_ok _ _ _ _ _ (read_dict_ok _ _ _ Hl)). reflexivity.
Qed.

Lemma get_frame_ok h self c m f :
  h !! self = Some (OModel c m) -> frame m = Some f ->
  ToolModel.get_frame self h = (Ok f, h).
Proof.
  intros Hs Hf. unfold ToolModel.get_frame.
  rewrite (bind_ok _ _ _ _ _ (read_model_ok _ _ _ _ Hs)), Hf. reflexivity.
Qed.

Lemma get_link_name_ok h self c m v :
  h !! self = Some (OModel c m) -> link_name m = Some v ->
  ToolModel.get_link_name self h = (Ok v, h).
Proof.
  intros Hs Hf. unfold ToolModel.get_link_name.
  rewrite (bind_ok _ _ _ _ _ (read_model_ok _ _ _ _ Hs)), Hf. reflexivity.
Qed.

(** a new object leaves every object of the store as it was *)
Lemma alloc_fresh (h : store) : h !! fresh (dom h) = None.
Proof. apply (proj1 (not_elem_of_dom (h : gmap loc obj) _)), is_fresh. Qed.

Lemma alloc_extends (h : store) o : h ⊆ <[fresh (dom h) := o]> h.
Proof. apply insert_subseteq, alloc_fresh. Qed.

Lemma from_tcf_to_t0cf_ok h self c m sf X :
  h !! self = Some (OModel c m) -> frame m = Some sf ->
  ToolModel.from_tcf_to_t0cf self X h
  = (Ok (map (ToolModel.convert
                (Transformation_from_frame_to_frame sf Frame_worldXY)) X), h).
Proof.
  intros Hs Hf. unfold ToolModel.from_tcf_to_t0cf.
  rewrite (bind_ok _ _ _ _ _ (get_frame_ok _ _ _ _ _ Hs Hf)). reflexivity.
Qed.

Lemma from_t0cf_to_tcf_ok h self c m sf X :
  h !! self = Some (OModel c m) -> frame m = Some sf ->
  ToolModel.from_t0cf_to_tcf self X h
  = (Ok (map (ToolModel.convert
                (Transformation_from_frame_to_frame Frame_worldXY sf)) X), h).
Proof.
  intros Hs Hf. unfold ToolModel.from_t0cf_to_tcf.
  rewrite (bind_ok _ _ _ _ _ (get_frame_ok _ _ _ _ _ Hs Hf)). reflexivity.
Qed.

(** one frame, there and back *)
Lemma convert_roundtrip `{!GeometryLaws G} sf f :
  valid_frame sf -> valid_frame f ->
  ToolModel.convert (Transformation_from_frame_to_frame Frame_worldXY sf)
    (ToolModel.convert (Transformation_from_frame_to_frame sf Frame_worldXY) f)
  = f.
Proof.
  intros Hsf Hf. unfold ToolModel.convert.
  rewrite transformation_of_frame_of_transformation.
  - rewrite mul_assoc, frame_to_frame_inverse, mul_identity_r
      by auto using valid_worldXY.
    apply frame_of_transformation_of_frame, Hf.
  - apply rigid_mul.
    + apply rigid_from_frame, Hf.
    + apply rigid_from_frame_to_frame; auto using valid_worldXY.
Qed.

(** and back and there *)
Lemma convert_roundtrip_back `{!GeometryLaws G} sf f :
  valid_frame sf -> valid_frame f ->
  ToolModel.convert (Transformation_from_frame_to_frame sf Frame_worldXY)
    (ToolModel.convert (Transformation_from_frame_to_frame Frame_worldXY sf) f)
  = f.
Proof.
  intros Hsf Hf. unfold ToolModel.convert.
  rewrite transformation_of_frame_of_transformation.
  - rewrite mul_assoc, frame_to_frame_inverse, mul_identity_r
      by auto using valid_worldXY.
    apply frame_of_transformation_of_frame, Hf.
  - apply rigid_mul.
    + apply rigid_from_frame, Hf.
    + apply rigid_from_frame_to_frame; auto using valid_worldXY.
Qed.

End Run.

(** ** Reading and rebuilding links *)

Section Links.
Context {G : Geometry}.

Lemma mapM_read_only {A B} (f : A -> M B) :
  read_only f -> read_only (mapM f).
Proof.
  intros Hf l. induction l as [|a l IH]; intros h; simpl; [reflexivity|].
  unfold bind. specialize (Hf a h).
  destruct (f a h) as [[b|e] h1]; simpl in *; subst; [|reflexivity].
  specialize (IH h). destruct (mapM f l h) as [[bs|e] h2]; simpl in *; subst; reflexivity.
Qed.

Lemma mapM_stable {A B} (f : A -> M B) :
  read_only f -> stable f -> stable (mapM f).
Proof.
  intros Hr Hf l. induction l as [|a l IH]; intros bs h h' Hsub; simpl.
  - intros [= <-]. reflexivity.
  - unfold bind. pose proof (Hr a h) as Ha.
    destruct (f a h) as [[b|e] h1] eqn:Efa; simpl in Ha; subst h1; [|discriminate].
    rewrite (Hf _ _ _ _ Hsub Efa).
    pose proof (mapM_read_only f Hr l h) as Hl.
    destruct (mapM f l h) as [[bs'|e] h2] eqn:El; simpl in Hl; subst h2; [|discriminate].
    rewrite (IH _ _ _ Hsub El). intros [= <-]. reflexivity.
Qed.

Lemma read_mesh_read_only : read_only read_mesh.
Proof. intros l h. unfold read_mesh. destruct (h !! l) as [[]|]; reflexivity. Qed.

Lemma read_mesh_stable : stable read_mesh.
Proof.
  intros l v h h' Hsub. unfold read_mesh.
  destruct (h !! l) as [[v'| |]|] eqn:El; try discriminate.
  intros [= <-]. rewrite (lookup_weaken _ _ _ _ El Hsub). reflexivity.
Qed.

Lemma link_to_data_read_only : read_only RobotModel.link_to_data.
Proof.
  intros l h. unfold RobotModel.link_to_data, bind.
  pose proof (mapM_read_only _ read_mesh_read_only (l_visual l) h) as Hv.
  destruct (mapM read_mesh (l_visual l) h) as [[vs|e] h1]; simpl in Hv; subst; [|reflexivity].
  pose proof (mapM_read_only _ read_mesh_read_only (l_collision l) h) as Hc.
  destruct (mapM read_mesh (l_collision l) h) as [[cs|e] h1]; simpl in Hc; subst; reflexivity.
Qed.

Lemma link_to_data_stable : stable RobotModel.link_to_data.
Proof.
  intros l v h h' Hsub. unfold RobotModel.link_to_data, bind.
  pose proof (mapM_read_only _ read_mesh_read_only (l_visual l) h) as Hv.
  destruct (mapM read_mesh (l_visual l) h) as [[vs|e] h1] eqn:Ev;
    simpl in Hv; subst; [|discriminate].
  rewrite (mapM_stable _ read_mesh_read_only read_mesh_stable _ _ _ _ Hsub Ev).
  pose proof (mapM_read_only _ read_mesh_read_only (l_collision l) h) as Hc.
  destruct (mapM read_mesh (l_collision l) h) as [[cs|e] h1] eqn:Ec;
    simpl in Hc; subst; [|discriminate].
  rewrite (mapM_stable _ read_mesh_read_only read_mesh_stable _ _ _ _ Hsub Ec).
  unfold ret. intros [= <-]. reflexivity.
Qed.

Lemma links_data_stable (h h' : store) ls vs :
  h ⊆ h' -> links_data h ls = Ok vs -> links_data h' ls = Ok vs.
Proof.
  unfold links_data. intros Hsub Hl.
  pose proof (mapM_read_only _ link_to_data_read_only ls h) as Hr.
  destruct (mapM RobotModel.link_to_data ls h) as [r h1] eqn:E.
  simpl in *. subst.
  rewrite (mapM_stable _ link_to_data_read_only link_to_data_stable _ _ _ _ Hsub E).
  reflexivity.
Qed.

Lemma links_data_run (h : store) ls vs :
  links_data h ls = Ok vs -> mapM RobotModel.link_to_data ls h = (Ok vs, h).
Proof.
  unfold links_data. intros Hl.
  pose proof (mapM_read_only _ link_to_data_read_only ls h) as Hr.
  destruct (mapM RobotModel.link_to_data ls h) as [r h1]. simpl in *. congruence.
Qed.

(** new meshes: the store grows, and the meshes read back *)
Lemma new_meshes (vs : list value) (h : store) :
  exists ls h', mapM RobotModel.new_mesh vs h = (Ok ls, h') /\ h ⊆ h'
    /\ mapM read_mesh ls h' = (Ok vs, h').
Proof.
  revert h. induction vs as [|v vs IH]; intros h; simpl.
  - exists [], h. auto.
  - unfold bind at 1. unfold RobotModel.new_mesh at 1, alloc.
    set (l := fresh (dom h)). set (h1 := <[l := OMesh v]> h).
    destruct (IH h1) as (ls & h' & Hrun & Hsub & Hread).
    unfold bind at 1. rewrite Hrun.
    exists (l :: ls), h'. split; [reflexivity|]. split.
    + etrans; [apply alloc_extends | exact Hsub].
    + simpl. unfold bind at 1.
      assert (Hl : h' !! l = Some (OMesh v)).
      { apply (lookup_weaken h1); [apply lookup_insert_eq | exact Hsub]. }
      unfold read_mesh at 1. rewrite Hl. unfold bind. rewrite Hread. reflexivity.
Qed.

Lemma mapM_extending {A B} (f : A -> M B) :
  extending f -> extending (mapM f).
Proof.
  intros Hf l. induction l as [|a l IH]; intros bs h h'; simpl.
  - intros [= <- <-]. reflexivity.
  - unfold bind. destruct (f a h) as [[b|e] h1] eqn:Ea; [|discriminate].
    destruct (mapM f l h1) as [[bs'|e] h2] eqn:El; [|discriminate].
    intros [= <- <-]. etrans; [exact (Hf _ _ _ _ Ea) | exact (IH _ _ _ El)].
Qed.

Lemma new_mesh_extending : extending RobotModel.new_mesh.
Proof.
  intros v l h h'. unfold RobotModel.new_mesh, alloc. intros [= <- <-].
  apply alloc_extends.
Qed.

Lemma link_from_data_extending : extending RobotModel.link_from_data.
Proof.
  intros v l h h'. unfold RobotModel.link_from_data.
  destruct v as [| | | |d]; try discriminate.
  destruct (d !! "name") as [[|nm| | |]|]; try discriminate.
  destruct (d !! "visual") as [[| | |vs|]|]; try discriminate.
  destruct (d !! "collision") as [[| | |cs|]|]; try discriminate.
  unfold bind.
  destruct (mapM RobotModel.new_mesh vs h) as [[vl|e] h1] eqn:Ev; [|discriminate].
  destruct (mapM RobotModel.new_mesh cs h1) as [[cl|e] h2] eqn:Ec; [|discriminate].
  intros [= <- <-].
  etrans; eapply (mapM_extending _ new_mesh_extending); eassumption.
Qed.

Lemma link_dict_name nm vs cs :
  RobotModel.link_dict nm vs cs !! "name" = Some (VStr nm).
Proof. apply lookup_insert_eq. Qed.

Lemma link_dict_visual nm vs cs :
  RobotModel.link_dict nm vs cs !! "visual" = Some (VList vs).
Proof.
  unfold RobotModel.link_dict.
  rewrite lookup_insert_ne by discriminate. apply lookup_insert_eq.
Qed.

Lemma link_dict_collision nm vs cs :
  RobotModel.link_dict nm vs cs !! "collision" = Some (VList cs).
Proof.
  unfold RobotModel.link_dict.
  rewrite !lookup_insert_ne by discriminate. apply lookup_insert_eq.
Qed.

(** a link rebuilt from its data serialises to the same data *)
Lemma link_roundtrip nm vs cs (h : store) :
  exists l h',
    RobotModel.link_from_data (VDict (RobotModel.link_dict nm vs cs)) h = (Ok l, h')
    /\ h ⊆ h'
    /\ RobotModel.link_to_data l h' = (Ok (VDict (RobotModel.link_dict nm vs cs)), h').
Proof.
  unfold RobotModel.link_from_data.
  rewrite link_dict_name, link_dict_visual, link_dict_collision.
  destruct (new_meshes vs h) as (vl & h1 & Hv & Hs1 & Hrv).
  destruct (new_meshes cs h1) as (cl & h2 & Hc & Hs2 & Hrc).
  exists (mkLink nm vl cl), h2.
  rewrite (bind_ok _ _ _ _ _ Hv), (bind_ok _ _ _ _ _ Hc).
  split; [reflexivity|]. split; [etrans; eassumption|].
  unfold RobotModel.link_to_data; simpl.
  rewrite (bind_ok _ _ _ _ _
    (mapM_stable _ read_mesh_read_only read_mesh_stable _ _ _ _ Hs2 Hrv)).
  rewrite (bind_ok _ _ _ _ _ Hrc). reflexivity.
Qed.

(** and so for a list of links *)
Lemma links_roundtrip lks0 (h0 : store) ls :
  links_data h0 lks0 = Ok ls ->
  forall h : store, exists lks h',
    mapM RobotModel.link_from_data ls h = (Ok lks, h')
    /\ h ⊆ h' /\ links_data h' lks = Ok ls.
Proof.
  intros H0. apply links_data_run in H0.
  revert ls H0. induction lks0 as [|l0 lks0 IH]; intros ls; simpl.
  - intros [= <-] h. exists [], h. auto.
  - unfold bind.
    pose proof (link_to_data_read_only l0 h0) as Hr.
    destruct (RobotModel.link_to_data l0 h0) as [[v|e] h1] eqn:El;
      simpl in Hr; subst h1; [|discriminate].
    destruct (mapM RobotModel.link_to_data lks0 h0) as [[vs|e] h1] eqn:Els;
      [|discriminate].
    pose proof (mapM_read_only _ link_to_data_read_only lks0 h0) as Hr.
    rewrite Els in Hr; simpl in Hr; subst h1.
    intros [= <-] h.
    assert (Hv : exists nm a b, v = VDict (RobotModel.link_dict nm a b)).
    { revert El. unfold RobotModel.link_to_data, bind.
      destruct (mapM read_mesh (l_visual l0) h0) as [[a|?] ?]; [|discriminate].
      destruct (mapM read_mesh (l_collision l0) _) as [[b|?] ?]; [|discriminate].
      intros [= <- _]. eauto. }
    destruct Hv as (nm & a & b & ->).
    destruct (link_roundtrip nm a b h) as (l & h1 & Hl & Hs1 & Hd).
    destruct (IH _ eq_refl h1) as (lks & h2 & Hls & Hs2 & Hds).
    exists (l :: lks), h2. simpl.
    rewrite (bind_ok _ _ _ _ _ Hl), (bind_ok _ _ _ _ _ Hls).
    split; [reflexivity|]. split; [etrans; eassumption|].
    unfold links_data. simpl.
    rewrite (bind_ok _ _ _ _ _ (link_to_data_stable _ _ _ _ Hs2 Hd)).
    rewrite (bind_ok _ _ _ _ _ (links_data_run _ _ _ Hds)). reflexivity.
Qed.

End Links.

(** ** Serialising and rebuilding models *)

Section Serialise.
Context {G : Geometry}.

Lemma base_data_run (h : store) self c m ls :
  h !! self = Some (OModel c m) -> links_data h (links m) = Ok ls ->
  RobotModel.data self h
  = (Ok (fresh (dom h)),
     <[fresh (dom h) := ODict (RobotModel.tree_dict (name m) ls (joints m))]> h).
Proof.
  intros Hs Hl. unfold RobotModel.data.
  rewrite (bind_ok _ _ _ _ _ (read_model_ok _ _ _ _ Hs)).
  rewrite (bind_ok _ _ _ _ _ (links_data_run _ _ _ Hl)). reflexivity.
Qed.

Lemma get_list_pure d k (h : store) : snd (RobotModel.get_list d k h) = h.
Proof. unfold RobotModel.get_list. destruct (d !! k) as [[]|]; reflexivity. Qed.

(** what a successful base reconstruction leaves *)
Lemma base_from_data_inv cls data (h h1 : store) t :
  RobotModel.from_data cls data h = (Ok t, h1) ->
  exists d m0 (h0 : store),
    h !! data = Some (ODict d) /\ h ⊆ h0 /\ h0 !! t = None
    /\ h1 = <[t := OModel cls m0]> h0
    /\ name m0 = default VNone (d !! "name")
    /\ frame m0 = None /\ link_name m0 = None.
Proof.
  unfold RobotModel.from_data, bind at 1, read_dict.
  destruct (h !! data) as [[|d|]|] eqn:Hd; try discriminate.
  unfold bind at 1.
  pose proof (get_list_pure d "links" h) as H1.
  destruct (RobotModel.get_list d "links" h) as [[ls|e] h']; simpl in H1; subst h';
    [|discriminate].
  unfold bind at 1.
  pose proof (get_list_pure d "joints" h) as H1.
  destruct (RobotModel.get_list d "joints" h) as [[js|e] h']; simpl in H1; subst h';
    [|discriminate].
  unfold bind at 1.
  destruct (mapM RobotModel.link_from_data ls h) as [[lks|e] h0] eqn:El; [|discriminate].
  unfold alloc. intros [= <- <-].
  eexists d, _, h0. repeat split; try reflexivity.
  - exact (mapM_extending _ link_from_data_extending _ _ _ _ El).
  - apply alloc_fresh.
Qed.

Lemma base_from_data_run cls data (h h0 : store) d ls js lks :
  h !! data = Some (ODict d) ->
  d !! "links" = Some (VList ls) -> d !! "joints" = Some (VList js) ->
  mapM RobotModel.link_from_data ls h = (Ok lks, h0) ->
  RobotModel.from_data cls data h
  = (Ok (fresh (dom h0)),
     <[fresh (dom h0) := OModel cls
        {| name := default VNone (d !! "name"); links := lks; joints := js;
           frame := None; link_name := None |}]> h0).
Proof.
  intros Hd Hl Hj Hm. unfold RobotModel.from_data.
  rewrite (bind_ok _ _ _ _ _ (read_dict_ok _ _ _ Hd)).
  unfold RobotModel.get_list. rewrite Hl, Hj.
  unfold bind at 1, ret at 1. unfold bind at 1, ret at 1.
  rewrite (bind_ok _ _ _ _ _ Hm). reflexivity.
Qed.

(** the three ways [from_data] can go once the base class had its turn *)
Lemma from_data_base_raise cls data (h h1 : store) e :
  RobotModel.from_data cls data h = (Raise e, h1) ->
  ToolModel.from_data cls data h = (Raise e, h1).
Proof. intros Hb. unfold ToolModel.from_data. apply bind_raise, Hb. Qed.

Lemma from_data_no_frame cls data (h h1 : store) t d :
  RobotModel.from_data cls data h = (Ok t, h1) ->
  h !! data = Some (ODict d) -> d !! "frame" = None ->
  exists h', ToolModel.from_data cls data h = (Raise (KeyError "frame"), h').
Proof.
  intros Hb Hd Hf.
  destruct (base_from_data_inv _ _ _ _ _ Hb) as (d' & m0 & h0 & Hd' & Hs & Ht & -> & _).
  rewrite Hd in Hd'. injection Hd' as <-.
  assert (Hne : t <> data).
  { intros ->. rewrite (lookup_weaken _ _ _ _ Hd Hs) in Ht. discriminate. }
  unfold ToolModel.from_data.
  rewrite (bind_ok _ _ _ _ _ Hb).
  rewrite (bind_ok _ _ _ _ _ (read_model_ok _ _ _ _ (lookup_insert_eq _ _ _))).
  unfold ToolModel.set_name.
  rewrite (bind_ok _ _ _ _ _ (update_model_ok _ _ _ _ _ (lookup_insert_eq _ _ _))).
  eexists. apply bind_raise. eapply dict_getitem_missing; [|exact Hf].
  rewrite !lookup_insert_ne by exact Hne. exact (lookup_weaken _ _ _ _ Hd Hs).
Qed.

Lemma link_name_entry_run (h : store) data d :
  h !! data = Some (ODict d) ->
  (if bool_decide (is_Some (d !! "link_name"))
   then dict_getitem data "link_name" else ret VNone) h
  = (Ok (default VNone (d !! "link_name")), h).
Proof.
  intros Hd. case_bool_decide as Hl.
  - destruct Hl as [v Hl]. rewrite Hl.
    apply (dict_getitem_ok _ _ d); [exact Hd | exact Hl].
  - destruct (d !! "link_name") as [v|]; [destruct Hl; eauto | reflexivity].
Qed.

Lemma from_data_run cls data (h h0 : store) t d m0 fd f :
  RobotModel.from_data cls data h = (Ok t, <[t := OModel cls m0]> h0) ->
  h0 !! data = Some (ODict d) -> t <> data ->
  d !! "frame" = Some fd -> Frame_from_data fd = Ok f ->
  ToolModel.from_data cls data h
  = (Ok t,
     <[t := OModel cls
        {| name := py_or (name m0) (VStr "attached_tool");
           links := links m0; joints := joints m0; frame := Some f;
           link_name := Some (default VNone (d !! "link_name")) |}]> h0).
Proof.
  intros Hb Hd Hne Hf Hfd.
  unfold ToolModel.from_data.
  rewrite (bind_ok _ _ _ _ _ Hb).
  rewrite (bind_ok _ _ _ _ _ (read_model_ok _ _ _ _ (lookup_insert_eq _ _ _))).
  unfold ToolModel.set_name.
  rewrite (bind_ok _ _ _ _ _ (update_model_ok _ _ _ _ _ (lookup_insert_eq _ _ _))).
  rewrite insert_insert_eq.
  assert (Hd1 : forall o, (<[t := o]> h0 : store) !! data = Some (ODict d)).
  { intros o. rewrite lookup_insert_ne by exact Hne. exact Hd. }
  rewrite (bind_ok _ _ _ _ _ (dict_getitem_ok _ _ _ _ _ (Hd1 _) Hf)).
  unfold lift at 1. rewrite Hfd. unfold bind at 1.
  unfold ToolModel.set_frame.
  rewrite (bind_ok _ _ _ _ _ (update_model_ok _ _ _ _ _ (lookup_insert_eq _ _ _))).
  rewrite insert_insert_eq.
  rewrite (bind_ok _ _ _ _ _ (dict_contains_ok _ _ _ _ (Hd1 _))).
  rewrite (bind_ok _ _ _ _ _ (link_name_entry_run _ _ _ (Hd1 _))).
  unfold ToolModel.set_link_name.
  rewrite (bind_ok _ _ _ _ _ (update_model_ok _ _ _ _ _ (lookup_insert_eq _ _ _))).
  rewrite insert_insert_eq. reflexivity.
Qed.

(** the dictionary of a tree with the two tool entries written *)
Lemma entries_lookup nm ls js fd ln :
  let d := <["link_name" := ln]> (<["frame" := fd]> (RobotModel.tree_dict nm ls js)) in
  d !! "name" = Some nm /\ d !! "links" = Some (VList ls)
  /\ d !! "joints" = Some (VList js)
  /\ d !! "frame" = Some fd /\ d !! "link_name" = Some ln.
Proof.
  unfold RobotModel.tree_dict. cbv zeta.
  repeat split;
    repeat (first [ apply lookup_insert_eq
                  | rewrite lookup_insert_ne by discriminate ]).
Qed.

(** [from_data] on such a dictionary rebuilds the tree and the entries *)
Lemma from_data_of_entries cls (h : store) d nm lks0 ls js f ln :
  h !! d = None -> links_data h lks0 = Ok ls ->
  Frame_from_data (Frame_data f) = Ok f ->
  exists t (h4 : store) lks,
    ToolModel.from_data cls d
      (<[d := ODict (<["link_name" := ln]>
                       (<["frame" := Frame_data f]> (RobotModel.tree_dict nm ls js)))]> h)
    = (Ok t,
       <[t := OModel cls
          {| name := py_or nm (VStr "attached_tool"); links := lks; joints := js;
             frame := Some f; link_name := Some ln |}]> h4)
    /\ h ⊆ h4 /\ h4 !! t = None /\ links_data h4 lks = Ok ls.
Proof.
  intros Hd Hl Hf.
  set (dd := <["link_name" := ln]> (<["frame" := Frame_data f]> (RobotModel.tree_dict nm ls js))).
  destruct (entries_lookup nm ls js (Frame_data f) ln) as (Hn & Hls & Hjs & Hfr & Hln).
  fold dd in Hn, Hls, Hjs, Hfr, Hln.
  set (h3 := <[d := ODict dd]> h).
  assert (Hd3 : h3 !! d = Some (ODict dd)) by apply lookup_insert_eq.
  destruct (links_roundtrip _ _ _ Hl h3) as (lks & h4 & Hrun & Hs & Hdata).
  pose proof (base_from_data_run cls d h3 h4 dd ls js lks Hd3 Hls Hjs Hrun) as Hb.
  rewrite Hn in Hb. simpl in Hb.
  assert (Hd4 : h4 !! d = Some (ODict dd)) by exact (lookup_weaken _ _ _ _ Hd3 Hs).
  assert (Hne : fresh (dom h4) <> d).
  { intros E. pose proof (alloc_fresh h4) as Hfr4. rewrite E, Hd4 in Hfr4. discriminate. }
  pose proof (from_data_run cls d h3 h4 _ dd _ _ f Hb Hd4 Hne Hfr Hf) as Hrun'.
  rewrite Hln in Hrun'. simpl in Hrun'.
  exists (fresh (dom h4)), h4, lks. split; [exact Hrun'|]. split; [|split].
  - etrans; [|exact Hs]. apply insert_subseteq, Hd.
  - apply alloc_fresh.
  - exact Hdata.
Qed.

Lemma from_data_bad_frame cls data (h h0 : store) t d m0 fd e :
  RobotModel.from_data cls data h = (Ok t, <[t := OModel cls m0]> h0) ->
  h0 !! data = Some (ODict d) -> t <> data ->
  d !! "frame" = Some fd -> Frame_from_data fd = Raise e ->
  exists h', ToolModel.from_data cls data h = (Raise e, h').
Proof.
  intros Hb Hd Hne Hf Hfd.
  unfold ToolModel.from_data.
  rewrite (bind_ok _ _ _ _ _ Hb).
  rewrite (bind_ok _ _ _ _ _ (read_model_ok _ _ _ _ (lookup_insert_eq _ _ _))).
  unfold ToolModel.set_name.
  rewrite (bind_ok _ _ _ _ _ (update_model_ok _ _ _ _ _ (lookup_insert_eq _ _ _))).
  rewrite insert_insert_eq.
  assert (Hd1 : forall o, (<[t := o]> h0 : store) !! data = Some (ODict d)).
  { intros o. rewrite lookup_insert_ne by exact Hne. exact Hd. }
  rewrite (bind_ok _ _ _ _ _ (dict_getitem_ok _ _ _ _ _ (Hd1 _) Hf)).
  unfold lift at 1. rewrite Hfd. unfold bind at 1. eauto.
Qed.

(** what a successful [from_data] did *)
Lemma from_data_inv cls data (h h' : store) t :
  ToolModel.from_data cls data h = (Ok t, h') ->
  exists d m0 (h0 : store) fd f,
    h !! data = Some (ODict d) /\ h ⊆ h0 /\ h0 !! t = None
    /\ RobotModel.from_data cls data h = (Ok t, <[t := OModel cls m0]> h0)
    /\ name m0 = default VNone (d !! "name")
    /\ d !! "frame" = Some fd /\ Frame_from_data fd = Ok f
    /\ h' = <[t := OModel cls
               {| name := py_or (name m0) (VStr "attached_tool");
                  links := links m0; joints := joints m0; frame := Some f;
                  link_name := Some (default VNone (d !! "link_name")) |}]> h0.
Proof.
  intros Hrun.
  destruct (RobotModel.from_data cls data h) as [[t1|e] h1] eqn:Hb.
  2:{ rewrite (from_data_base_raise _ _ _ _ _ Hb) in Hrun. discriminate. }
  destruct (base_from_data_inv _ _ _ _ _ Hb)
    as (d & m0 & h0 & Hd & Hs & Ht & -> & Hn & _).
  assert (Hd0 : h0 !! data = Some (ODict d)) by exact (lookup_weaken _ _ _ _ Hd Hs).
  assert (Hne : t1 <> data).
  { intros ->. rewrite Hd0 in Ht. discriminate. }
  destruct (d !! "frame") as [fd|] eqn:Hf.
  2:{ destruct (from_data_no_frame _ _ _ _ _ _ Hb Hd Hf) as [h2 E].
      rewrite E in Hrun. discriminate. }
  destruct (Frame_from_data fd) as [f|e] eqn:Hfd.
  2:{ destruct (from_data_bad_frame _ _ _ _ _ _ _ _ _ Hb Hd0 Hne Hf Hfd) as [h2 E].
      rewrite E in Hrun. discriminate. }
  rewrite (from_data_run _ _ _ _ _ _ _ _ _ Hb Hd0 Hne Hf Hfd) in Hrun.
  injection Hrun as <- <-.
  exists d, m0, h0, fd, f. repeat split; auto.
Qed.

(** the constructor, run on an object of the store *)
Lemma init_run (h : store) self c m visual f collision nm ln :
  h !! self = Some (OModel c m) ->
  ToolModel.init self visual f collision nm ln h
  = (Ok tt,
     <[self := OModel c
        {| name := nm;
           links := [mkLink "attached_tool_link" [visual]
                       [ToolModel.mesh_or collision visual]];
           joints := []; frame := Some f; link_name := Some ln |}]> h).
Proof.
  intros Hs. unfold ToolModel.init, RobotModel.init, RobotModel.add_link,
    RobotModel.rebuild_tree, RobotModel.create,
    ToolModel.set_frame, ToolModel.set_link_name.
  rewrite (bind_ok _ _ _ _ _ (update_model_ok _ _ _ _ _ Hs)).
  rewrite (bind_ok _ _ _ _ _ (update_model_ok _ _ _ _ _ (lookup_insert_eq _ _ _))).
  rewrite insert_insert_eq.
  rewrite (bind_ok _ _ _ _ _
    (bind_ok _ _ _ _ _ (read_model_ok _ _ _ _ (lookup_insert_eq _ _ _)))).
  rewrite (bind_ok _ _ _ _ _
    (bind_ok _ _ _ _ _ (read_model_ok _ _ _ _ (lookup_insert_eq _ _ _)))).
  rewrite (bind_ok _ _ _ _ _ (update_model_ok _ _ _ _ _ (lookup_insert_eq _ _ _))).
  rewrite insert_insert_eq.
  rewrite (update_model_ok _ _ _ _ _ (lookup_insert_eq _ _ _)).
  rewrite insert_insert_eq. reflexivity.
Qed.

Lemma new_run (h : store) visual f collision nm ln :
  ToolModel.new visual f collision nm ln h
  = (Ok (fresh (dom h)),
     <[fresh (dom h) := OModel ToolModelClass
        {| name := default (VStr "attached_tool") nm;
           links := [mkLink "attached_tool_link" [visual]
                       [ToolModel.mesh_or collision visual]];
           joints := []; frame := Some f;
           link_name := Some (default VNone ln) |}]> h).
Proof.
  unfold ToolModel.new. unfold bind at 1, alloc at 1.
  rewrite (bind_ok _ _ _ _ _ (init_run _ _ _ _ _ _ _ _ _ (lookup_insert_eq _ _ _))).
  rewrite insert_insert_eq. reflexivity.
Qed.

Lemma model_at_insert (h : store) l c m : model_at (<[l := OModel c m]> h) l = Some m.
Proof. unfold model_at. rewrite lookup_insert_eq. reflexivity. Qed.

Lemma data_of_robot (h : store) robot m :
  h !! robot = Some (OModel RobotModelClass m) ->
  ToolModel.data_of robot h = RobotModel.data robot h.
Proof. intros Hr. unfold ToolModel.data_of. rewrite Hr. reflexivity. Qed.

(** the [data] property: whatever the base getter returned, looking up
    [fget] on it raises *)
Lemma data_raises (self : loc) (h : store) :
  exists e (h' : store), ToolModel.data self h = (Raise e, h').
Proof.
  unfold ToolModel.data, bind at 1.
  destruct (RobotModel.data self h) as [[d|e] h1]; eauto.
Qed.

Lemma data_fget (h : store) self c m ls :
  h !! self = Some (OModel c m) -> links_data h (links m) = Ok ls ->
  result_of (ToolModel.data self) h = Raise (AttributeError "fget").
Proof.
  intros Hs Hl. unfold result_of, ToolModel.data.
  rewrite (bind_ok _ _ _ _ _ (base_data_run _ _ _ _ _ Hs Hl)). reflexivity.
Qed.

(** lines 90 to 92 of [data], run on a new dictionary [d] *)
Lemma data_entries_run (h : store) self c m f ln d td :
  h !! self = Some (OModel c m) -> frame m = Some f -> link_name m = Some ln ->
  h !! d = None ->
  ToolModel.data_entries self d (<[d := ODict td]> h)
  = (Ok d, <[d := ODict (<["link_name" := ln]> (<["frame" := Frame_data f]> td))]> h).
Proof.
  intros Hs Hf Hln Hd.
  assert (Hne : d <> self) by (intros ->; rewrite Hs in Hd; discriminate).
  assert (Hs1 : forall o, (<[d := o]> h : store) !! self = Some (OModel c m)).
  { intros o. rewrite lookup_insert_ne by exact Hne. exact Hs. }
  unfold ToolModel.data_entries.
  rewrite (bind_ok _ _ _ _ _ (get_frame_ok _ _ _ _ _ (Hs1 _) Hf)).
  rewrite (bind_ok _ _ _ _ _ (dict_setitem_ok _ _ _ _ _ (lookup_insert_eq _ _ _))).
  rewrite insert_insert_eq.
  rewrite (bind_ok _ _ _ _ _ (get_link_name_ok _ _ _ _ _ (Hs1 _) Hln)).
  rewrite (bind_ok _ _ _ _ _ (dict_setitem_ok _ _ _ _ _ (lookup_insert_eq _ _ _))).
  rewrite insert_insert_eq. reflexivity.
Qed.

End Serialise.

(** * The claims *)

Section Claims.
Context {G : Geometry}.

(** C9: whatever the instance and the store, [dtype] returns the same
    fixed type tag, ["compas_robots/ToolModel"], and leaves the store as
    it was. *)
Theorem dtype_fixed (self : loc) (h : store) :
  ToolModel.dtype self h = (Ok "compas_robots/ToolModel", h).
Proof. reflexivity. Qed.

(** C4: on a tool whose frame is [sf], each conversion returns a list of
    the length of its input, whose [i]-th element is the frame of the
    transformation of the [i]-th input frame multiplied by [Te], where
    [Te] goes from [sf] to the world frame for [from_tcf_to_t0cf] and
    from the world frame to [sf] for [from_t0cf_to_tcf]. *)
Theorem conversions_elementwise (h : store) self c m sf (X : list Frame) :
  h !! self = Some (OModel c m) -> frame m = Some sf ->
  (exists Y, ToolModel.from_tcf_to_t0cf self X h = (Ok Y, h)
     /\ length Y = length X
     /\ forall i f, X !! i = Some f ->
          Y !! i = Some (Frame_from_transformation
                           (Transformation_mul (Transformation_from_frame f)
                              (Transformation_from_frame_to_frame sf Frame_worldXY))))
  /\ (exists Y, ToolModel.from_t0cf_to_tcf self X h = (Ok Y, h)
     /\ length Y = length X
     /\ forall i f, X !! i = Some f ->
          Y !! i = Some (Frame_from_transformation
                           (Transformation_mul (Transformation_from_frame f)
                              (Transformation_from_frame_to_frame Frame_worldXY sf)))).
Proof.
  intros Hs Hf. split; eexists; (split; [|split]).
  - apply (from_tcf_to_t0cf_ok _ _ _ _ _ _ Hs Hf).
  - apply length_map.
  - intros i f Hi. rewrite list_lookup_fmap, Hi. reflexivity.
  - apply (from_t0cf_to_tcf_ok _ _ _ _ _ _ Hs Hf).
  - apply length_map.
  - intros i f Hi. rewrite list_lookup_fmap, Hi. reflexivity.
Qed.

(** C7: the conversions leave the store, hence [self], its frame and
    every other object, as it was; on a tool with a frame their result
    is the same for every store and tool with that frame, and calling
    one twice gives the same list twice. *)
Theorem conversions_pure (h : store) self c m sf (X : list Frame) :
  h !! self = Some (OModel c m) -> frame m = Some sf ->
  store_after (ToolModel.from_tcf_to_t0cf self X) h = h
  /\ store_after (ToolModel.from_t0cf_to_tcf self X) h = h
  /\ (forall (h2 : store) self2 c2 m2,
        h2 !! self2 = Some (OModel c2 m2) -> frame m2 = Some sf ->
        result_of (ToolModel.from_tcf_to_t0cf self2 X) h2
        = result_of (ToolModel.from_tcf_to_t0cf self X) h
        /\ result_of (ToolModel.from_t0cf_to_tcf self2 X) h2
           = result_of (ToolModel.from_t0cf_to_tcf self X) h)
  /\ (exists Y, (Y1 <- ToolModel.from_tcf_to_t0cf self X ;;
                 Y2 <- ToolModel.from_tcf_to_t0cf self X ;; ret (Y1, Y2)) h
                = (Ok (Y, Y), h))
  /\ (exists Y, (Y1 <- ToolModel.from_t0cf_to_tcf self X ;;
                 Y2 <- ToolModel.from_t0cf_to_tcf self X ;; ret (Y1, Y2)) h
                = (Ok (Y, Y), h)).
Proof.
  intros Hs Hf.
  pose proof (from_tcf_to_t0cf_ok _ _ _ _ _ X Hs Hf) as H1.
  pose proof (from_t0cf_to_tcf_ok _ _ _ _ _ X Hs Hf) as H2.
  unfold store_after, result_of. rewrite H1, H2.
  split; [reflexivity|]. split; [reflexivity|]. split; [|split].
  - intros h2 self2 c2 m2 Hs2 Hf2.
    rewrite (from_tcf_to_t0cf_ok _ _ _ _ _ X Hs2 Hf2).
    rewrite (from_t0cf_to_tcf_ok _ _ _ _ _ X Hs2 Hf2). split; reflexivity.
  - eexists. rewrite (bind_ok _ _ _ _ _ H1), (bind_ok _ _ _ _ _ H1). reflexivity.
  - eexists. rewrite (bind_ok _ _ _ _ _ H2), (bind_ok _ _ _ _ _ H2). reflexivity.
Qed.

(** C1: on a tool with a valid frame and a list [X] of valid frames,
    [from_tcf_to_t0cf] followed by [from_t0cf_to_tcf] returns [X], and
    so do the two in the other order (in exact arithmetic). *)
Theorem conversions_roundtrip `{!GeometryLaws G}
    (h : store) self c m sf (X : list Frame) :
  h !! self = Some (OModel c m) -> frame m = Some sf ->
  valid_frame sf -> Forall valid_frame X ->
  (Y <- ToolModel.from_tcf_to_t0cf self X ;; ToolModel.from_t0cf_to_tcf self Y) h
  = (Ok X, h)
  /\ (Y <- ToolModel.from_t0cf_to_tcf self X ;; ToolModel.from_tcf_to_t0cf self Y) h
     = (Ok X, h).
Proof.
  intros Hs Hf Hv HX. split.
  - rewrite (bind_ok _ _ _ _ _ (from_tcf_to_t0cf_ok _ _ _ _ _ X Hs Hf)).
    rewrite (from_t0cf_to_tcf_ok _ _ _ _ _ _ Hs Hf). f_equal. f_equal.
    induction HX as [|f X Hfv HX IH]; simpl; [reflexivity|].
    rewrite IH, (convert_roundtrip sf f Hv Hfv). reflexivity.
  - rewrite (bind_ok _ _ _ _ _ (from_t0cf_to_tcf_ok _ _ _ _ _ X Hs Hf)).
    rewrite (from_tcf_to_t0cf_ok _ _ _ _ _ _ Hs Hf). f_equal. f_equal.
    induction HX as [|f X Hfv HX IH]; simpl; [reflexivity|].
    rewrite IH, (convert_roundtrip_back sf f Hv Hfv). reflexivity.
Qed.

(** C6: constructed with a visual mesh and a frame only, the tool is a
    new object whose one link shows and collides with the very mesh
    object [visual], whose name is ["attached_tool"] and whose link name
    is [None]; nothing else in the store changes, so no mesh is copied. *)
Theorem new_defaults (h : store) (visual : loc) (f : Frame) :
  exists self,
    h !! self = None
    /\ ToolModel.new visual f None None None h
       = (Ok self,
          <[self := OModel ToolModelClass
             {| name := VStr "attached_tool";
                links := [mkLink "attached_tool_link" [visual] [visual]];
                joints := []; frame := Some f; link_name := Some VNone |}]> h).
Proof.
  exists (fresh (dom h)). split; [apply alloc_fresh | apply new_run].
Qed.

(** C8: when [from_data] accepts a dictionary, the name of the tool is
    the name the base class rebuilt if that is truthy, and
    ["attached_tool"] if it is falsy, as it is when the ["name"] entry
    is missing, [None] or the empty string.  The constructor stores the
    name it is given as it is, the empty string too. *)
Theorem name_defaulting :
  (forall cls data (h h' : store) t,
     ToolModel.from_data cls data h = (Ok t, h') ->
     exists m0 m,
       result_of (RobotModel.from_data cls data) h = Ok t
       /\ model_at (store_after (RobotModel.from_data cls data) h) t = Some m0
       /\ model_at h' t = Some m
       /\ (truthy (name m0) = false -> name m = VStr "attached_tool")
       /\ (truthy (name m0) = true -> name m = name m0)
       /\ (forall d, h !! data = Some (ODict d) ->
             d !! "name" = None \/ d !! "name" = Some VNone
             \/ d !! "name" = Some (VStr "") ->
             name m = VStr "attached_tool"))
  /\ (forall (h : store) visual f collision nm ln,
        exists self (h' : store) m,
          ToolModel.new visual f collision (Some nm) ln h = (Ok self, h')
          /\ model_at h' self = Some m /\ name m = nm).
Proof.
  split.
  - intros cls data h h' t Hrun.
    destruct (from_data_inv _ _ _ _ _ Hrun)
      as (d & m0 & h0 & fd & f & Hd & Hs & Ht & Hb & Hn & Hf & Hfd & ->).
    exists m0; eexists. unfold result_of, store_after. rewrite Hb. simpl.
    split; [reflexivity|].
    split; [apply model_at_insert|]. split; [apply model_at_insert|].
    simpl. unfold py_or. split; [|split].
    + intros ->. reflexivity.
    + intros ->. reflexivity.
    + intros d' Hd'. rewrite Hd in Hd'. injection Hd' as <-.
      rewrite Hn. intros [-> | [-> | ->]]; reflexivity.
  - intros h visual f collision nm ln.
    eexists _, _, _. split; [apply new_run|]. split; [apply model_at_insert|].
    reflexivity.
Qed.


(** On a robot model of class [RobotModel] itself whose links
    serialise, with a valid frame, [from_robot_model] returns a new
    object and leaves every object of the store, the robot and its
    meshes among them, as it was; the new tool has joints equal to the
    robot's and links that serialise to the same data as the robot's,
    and carries the given frame and link name. *)
Theorem from_robot_model_independent `{!GeometryLaws G}
    (h : store) cls robot m ls (f : Frame) (ln : value) :
  h !! robot = Some (OModel RobotModelClass m) ->
  links_data h (links m) = Ok ls ->
  valid_frame f ->
  exists t (h' : store) m',
    ToolModel.from_robot_model cls robot f ln h = (Ok t, h')
    /\ h ⊆ h' /\ h' !! robot = Some (OModel RobotModelClass m)
    /\ h !! t = None /\ h' !! t = Some (OModel cls m')
    /\ links_data h' (links m') = Ok ls /\ joints m' = joints m
    /\ frame m' = Some f /\ link_name m' = Some ln.
Proof.
  intros Hr Hl Hv.
  set (d := fresh (dom h)).
  assert (Hd : h !! d = None) by apply alloc_fresh.
  destruct (from_data_of_entries cls h d (name m) (links m) ls (joints m) f ln
              Hd Hl (frame_data_roundtrip f Hv))
    as (t & h4 & lks & Hrun & Hs & Ht & Hdata).
  assert (Hs' : h ⊆ <[t := OModel cls
      {| name := py_or (name m) (VStr "attached_tool"); links := lks;
         joints := joints m; frame := Some f; link_name := Some ln |}]> h4).
  { etrans; [exact Hs | apply insert_subseteq, Ht]. }
  eexists t, _, _. split; [|split; [exact Hs'|split; [|split; [|split; [|split]]]]].
  - unfold ToolModel.from_robot_model.
    assert (Hdata0 : ToolModel.data_of robot h
              = (Ok d, <[d := ODict (RobotModel.tree_dict (name m) ls (joints m))]> h)).
    { rewrite (data_of_robot _ _ _ Hr). apply (base_data_run _ _ _ _ _ Hr Hl). }
    rewrite (bind_ok _ _ _ _ _ Hdata0).
    rewrite (bind_ok _ _ _ _ _ (dict_setitem_ok _ _ _ _ _ (lookup_insert_eq _ _ _))).
    rewrite insert_insert_eq.
    rewrite (bind_ok _ _ _ _ _ (dict_setitem_ok _ _ _ _ _ (lookup_insert_eq _ _ _))).
    rewrite insert_insert_eq. exact Hrun.
  - exact (lookup_weaken _ _ _ _ Hr Hs').
  - exact (lookup_weaken_None _ _ _ Ht Hs).
  - apply lookup_insert_eq.
  - simpl. apply (links_data_stable h4); [apply insert_subseteq, Ht | exact Hdata].
  - repeat split.
Qed.

(** Take the dictionary of the base class for a tool [x] and write the
    two entries of the [data] property into it (its lines 90 to 92).
    From that dictionary [from_data] rebuilds a
    new tool with links that serialise to the same data as those of
    [x], the same joints, the same frame and the same link name; its
    name is that of [x] when truthy and ["attached_tool"] otherwise.
    Every object of the store stays as it was. *)
Theorem from_data_of_data_entries `{!GeometryLaws G}
    (h : store) x c m ls (f : Frame) (ln : value) :
  h !! x = Some (OModel c m) ->
  frame m = Some f -> link_name m = Some ln ->
  links_data h (links m) = Ok ls ->
  valid_frame f ->
  exists t (h' : store) m',
    (d <- RobotModel.data x ;; d' <- ToolModel.data_entries x d ;;
     ToolModel.from_data c d') h = (Ok t, h')
    /\ h ⊆ h' /\ h !! t = None /\ h' !! t = Some (OModel c m')
    /\ links_data h' (links m') = Ok ls /\ joints m' = joints m
    /\ frame m' = Some f /\ link_name m' = Some ln
    /\ name m' = py_or (name m) (VStr "attached_tool")
    /\ (truthy (name m) = true -> name m' = name m).
Proof.
  intros Hx Hf Hln Hl Hv.
  set (d := fresh (dom h)).
  assert (Hd : h !! d = None) by apply alloc_fresh.
  destruct (from_data_of_entries c h d (name m) (links m) ls (joints m) f ln
              Hd Hl (frame_data_roundtrip f Hv))
    as (t & h4 & lks & Hrun & Hs & Ht & Hdata).
  eexists t, _, _. split; [|split; [|split; [|split; [|split]]]].
  - rewrite (bind_ok _ _ _ _ _ (base_data_run _ _ _ _ _ Hx Hl)).
    fold d.
    rewrite (bind_ok _ _ _ _ _ (data_entries_run _ _ _ _ _ _ _ _ Hx Hf Hln Hd)).
    exact Hrun.
  - etrans; [exact Hs | apply insert_subseteq, Ht].
  - exact (lookup_weaken_None _ _ _ Ht Hs).
  - apply lookup_insert_eq.
  - simpl. apply (links_data_stable h4); [apply insert_subseteq, Ht | exact Hdata].
  - simpl. repeat split. unfold py_or. intros ->. reflexivity.
Qed.

End Claims.

(** * The claims on the sample objects, in exact arithmetic *)

Module OnSamples.
Import Sample.
#[local] Existing Instance Exact.geometry.
#[local] Existing Instance ExactLaws.laws.

Lemma tool_frame_valid : Exact.orthonormal tool_frame.
Proof. repeat split; apply Qc_is_canon; reflexivity. Qed.

Lemma turned_frame_valid : Exact.orthonormal turned_frame.
Proof. repeat split; apply Qc_is_canon; reflexivity. Qed.

Lemma frame_eq (f g : Exact.frame) :
  Exact.point f = Exact.point g -> Exact.xaxis f = Exact.xaxis g ->
  Exact.yaxis f = Exact.yaxis g -> f = g.
Proof. destruct f, g; simpl; intros; subst; reflexivity. Qed.

(** The docstring tool turns the axes of a frame and moves its origin
    0.14 against its z axis. *)
Example from_tcf_to_t0cf_turned :
  ToolModel.convert (Exact.from_frame_to_frame tool_frame Exact.worldXY) turned_frame
  = Exact.mkFrame (Exact.mkVec (q 1 1) (q 2 1) (q 143 50))
                  (Exact.mkVec (q 0 1) (q 0 1) (q 1 1))
                  (Exact.mkVec (q 3 5) (q 4 5) (q 0 1)).
Proof.
  apply frame_eq; apply ExactLaws.vec_eq; apply Qc_is_canon; reflexivity.
Qed.

Lemma conversions_elementwise_witness :
  exists Y,
    ToolModel.from_tcf_to_t0cf tool [turned_frame; Exact.worldXY] tool_store
    = (Ok Y, tool_store)
    /\ length Y = 2
    /\ forall i f, [turned_frame; Exact.worldXY] !! i = Some f ->
         Y !! i = Some (Exact.from_transformation
                          (Exact.mul (Exact.from_frame f)
                             (Exact.from_frame_to_frame tool_frame Exact.worldXY))).
Proof.
  apply (proj1 (conversions_elementwise tool_store tool ToolModelClass tool_model
                  tool_frame [turned_frame; Exact.worldXY] eq_refl eq_refl)).
Defined.

Lemma conversions_pure_witness :
  store_after (ToolModel.from_tcf_to_t0cf tool [turned_frame]) tool_store = tool_store
  /\ store_after (ToolModel.from_t0cf_to_tcf tool [turned_frame]) tool_store = tool_store.
Proof.
  pose proof (conversions_pure tool_store tool ToolModelClass tool_model
                tool_frame [turned_frame] eq_refl eq_refl) as H.
  split; [exact (proj1 H) | exact (proj1 (proj2 H))].
Defined.

Lemma conversions_roundtrip_witness :
  (Y <- ToolModel.from_tcf_to_t0cf tool [turned_frame; Exact.worldXY] ;;
   ToolModel.from_t0cf_to_tcf tool Y) tool_store
  = (Ok [turned_frame; Exact.worldXY], tool_store).
Proof.
  apply (proj1 (conversions_roundtrip tool_store tool ToolModelClass tool_model
                  tool_frame [turned_frame; Exact.worldXY] eq_refl eq_refl
                  tool_frame_valid
                  (Forall_cons_2 _ _ _ turned_frame_valid
                     (Forall_cons_2 _ _ _ ExactLaws.orthonormal_worldXY
                        (Forall_nil_2 _))))).
Defined.

Lemma name_defaulting_witness :
  (exists m,
     model_at (store_after (ToolModel.from_data ToolModelClass dict) frame_only_store)
              2%positive = Some m
     /\ name m = VStr "attached_tool")
  /\ (exists self (h' : store) m,
        ToolModel.new mesh tool_frame None (Some (VStr "")) None mesh_store
        = (Ok self, h')
        /\ model_at h' self = Some m /\ name m = VStr "").
Proof.
  split.
  - destruct (proj1 name_defaulting ToolModelClass dict frame_only_store
                (store_after (ToolModel.from_data ToolModelClass dict) frame_only_store)
                2%positive)
      as (m0 & m & _ & _ & Hm & _ & _ & Hmissing).
    + reflexivity.
    + exists m. split; [exact Hm|].
      apply (Hmissing {[ "frame" := Exact.frame_data tool_frame ]});
        [reflexivity | left; reflexivity].
  - apply (proj2 name_defaulting mesh_store mesh tool_frame None (VStr "") None).
Defined.


Lemma from_robot_model_independent_witness :
  exists t (h' : store) m',
    ToolModel.from_robot_model ToolModelClass robot tool_frame (VStr "tool0") robot_store
    = (Ok t, h')
    /\ robot_store ⊆ h'
    /\ h' !! robot = Some (OModel RobotModelClass robot_model)
    /\ robot_store !! t = None /\ h' !! t = Some (OModel ToolModelClass m')
    /\ links_data h' (links m')
       = Ok [VDict (RobotModel.link_dict "base" [VStr "cone"] [VStr "cone"])]
    /\ joints m' = [VStr "joint"]
    /\ frame m' = Some tool_frame /\ link_name m' = Some (VStr "tool0").
Proof.
  apply (from_robot_model_independent robot_store ToolModelClass robot robot_model
           [VDict (RobotModel.link_dict "base" [VStr "cone"] [VStr "cone"])]
           tool_frame (VStr "tool0")).
  - reflexivity.
  - reflexivity.
  - exact tool_frame_valid.
Defined.

Lemma from_data_of_data_entries_witness :
  exists t (h' : store) m',
    (d <- RobotModel.data tool ;; d' <- ToolModel.data_entries tool d ;;
     ToolModel.from_data ToolModelClass d') tool_store = (Ok t, h')
    /\ h' !! t = Some (OModel ToolModelClass m')
    /\ frame m' = Some tool_frame /\ link_name m' = Some VNone
    /\ name m' = VStr "attached_tool".
Proof.
  destruct (from_data_of_data_entries tool_store tool ToolModelClass tool_model
              [VDict (RobotModel.link_dict "attached_tool_link" [VStr "cone"] [VStr "cone"])]
              tool_frame VNone)
    as (t & h' & m' & Hrun & _ & _ & Ht & _ & _ & Hf & Hln & Hn & _).
  - reflexivity.
  - reflexivity.
  - reflexivity.
  - reflexivity.
  - exact tool_frame_valid.
  - exists t, h', m'. repeat split; assumption.
Defined.

(** On the sample tool, whose name is the empty string: reading the
    [data] property raises, so [from_data(x.data)] yields no tool; and
    from the dictionary the property was written to build, [from_data]
    yields a tool named ["attached_tool"]. *)
Lemma from_data_of_data_counterexample :
  ~ (exists t (h' : store) m',
       (d <- ToolModel.data tool ;; ToolModel.from_data ToolModelClass d) tool_store
       = (Ok t, h')
       /\ model_at h' t = Some m' /\ name m' = name tool_model)
  /\ (exists t m',
        result_of (d <- RobotModel.data tool ;; d' <- ToolModel.data_entries tool d ;;
                   ToolModel.from_data ToolModelClass d') tool_store = Ok t
        /\ model_at (store_after
                       (d <- RobotModel.data tool ;;
                        d' <- ToolModel.data_entries tool d ;;
                        ToolModel.from_data ToolModelClass d') tool_store) t = Some m'
        /\ name m' = VStr "attached_tool" /\ name m' <> name tool_model).
Proof.
  split.
  - intros (t & h' & m' & Hrun & _).
    destruct (data_raises tool tool_store) as (e & h1 & E).
    rewrite (bind_raise _ _ _ _ _ E) in Hrun. discriminate.
  - eexists _, _. split; [reflexivity|].
    split; [reflexivity|]. split; [reflexivity | discriminate].
Qed.

(** C10, on the tool of the docstrings: reading its [data] property
    raises the attribute error for [fget]; no dictionary is returned. *)
Theorem data_of_new_tool_raises :
  result_of (x <- ToolModel.new mesh tool_frame None None None ;; ToolModel.data x)
            mesh_store
  = Raise (AttributeError "fget").
Proof. reflexivity. Qed.

End OnSamples.

(** * Further properties of the tool model *)

(** ** What [from_data] and the constructor leave in the store *)

Section StoreFrame.
Context {G : Geometry}.

Lemma mapM_grows {A B} (f : A -> M B) :
  (forall a (h : store), h ⊆ snd (f a h)) ->
  forall l (h : store), h ⊆ snd (mapM f l h).
Proof.
  intros Hf l. induction l as [|a l IH]; intros h; simpl; [reflexivity|].
  unfold bind. pose proof (Hf a h) as Ha.
  destruct (f a h) as [[b|e] h1]; simpl in Ha; [|exact Ha].
  pose proof (IH h1) as Hl.
  destruct (mapM f l h1) as [[bs|e] h2]; simpl in *; etrans; eassumption.
Qed.

Lemma new_mesh_grows v (h : store) : h ⊆ snd (RobotModel.new_mesh v h).
Proof. apply alloc_extends. Qed.

Lemma link_from_data_grows v (h : store) : h ⊆ snd (RobotModel.link_from_data v h).
Proof.
  unfold RobotModel.link_from_data.
  destruct v as [| | | |d]; try reflexivity.
  destruct (d !! "name") as [[|nm| | |]|]; try reflexivity.
  destruct (d !! "visual") as [[| | |vs|]|]; try reflexivity.
  destruct (d !! "collision") as [[| | |cs|]|]; try reflexivity.
  unfold bind.
  pose proof (mapM_grows _ new_mesh_grows vs h) as Hv.
  destruct (mapM RobotModel.new_mesh vs h) as [[vl|e] h1]; simpl in Hv; [|exact Hv].
  pose proof (mapM_grows _ new_mesh_grows cs h1) as Hc.
  destruct (mapM RobotModel.new_mesh cs h1) as [[cl|e] h2]; simpl in *;
    etrans; eassumption.
Qed.

Lemma base_from_data_grows cls data (h : store) :
  h ⊆ snd (RobotModel.from_data cls data h).
Proof.
  unfold RobotModel.from_data, bind at 1, read_dict.
  destruct (h !! data) as [[|d|]|]; try reflexivity.
  unfold bind at 1.
  pose proof (get_list_pure d "links" h) as H1.
  destruct (RobotModel.get_list d "links" h) as [[ls|e] h']; simpl in H1; subst h';
    [|reflexivity].
  unfold bind at 1.
  pose proof (get_list_pure d "joints" h) as H1.
  destruct (RobotModel.get_list d "joints" h) as [[js|e] h']; simpl in H1; subst h';
    [|reflexivity].
  unfold bind at 1.
  pose proof (mapM_grows _ link_from_data_grows ls h) as Hl.
  destruct (mapM RobotModel.link_from_data ls h) as [[lks|e] h0]; simpl in Hl;
    [|exact Hl].
  simpl. etrans; [exact Hl | apply alloc_extends].
Qed.

(** once the base class has returned the new object [t], [from_data]
    touches that object only *)
Lemma from_data_after_base cls data (h h0 : store) t d m0 :
  RobotModel.from_data cls data h = (Ok t, <[t := OModel cls m0]> h0) ->
  h0 !! data = Some (ODict d) -> t <> data ->
  exists o, snd (ToolModel.from_data cls data h) = <[t := o]> h0.
Proof.
  intros Hb Hd Hne.
  assert (Hd1 : forall o, (<[t := o]> h0 : store) !! data = Some (ODict d)).
  { intros o. rewrite lookup_insert_ne by exact Hne. exact Hd. }
  destruct (d !! "frame") as [fd|] eqn:Hf.
  - destruct (Frame_from_data fd) as [f|e] eqn:Hfd.
    + rewrite (from_data_run _ _ _ _ _ _ _ _ _ Hb Hd Hne Hf Hfd). eauto.
    + unfold ToolModel.from_data.
      rewrite (bind_ok _ _ _ _ _ Hb).
      rewrite (bind_ok _ _ _ _ _ (read_model_ok _ _ _ _ (lookup_insert_eq _ _ _))).
      unfold ToolModel.set_name.
      rewrite (bind_ok _ _ _ _ _ (update_model_ok _ _ _ _ _ (lookup_insert_eq _ _ _))).
      rewrite insert_insert_eq.
      rewrite (bind_ok _ _ _ _ _ (dict_getitem_ok _ _ _ _ _ (Hd1 _) Hf)).
      unfold lift at 1. rewrite Hfd. unfold bind at 1. simpl. eauto.
  - unfold ToolModel.from_data.
    rewrite (bind_ok _ _ _ _ _ Hb).
    rewrite (bind_ok _ _ _ _ _ (read_model_ok _ _ _ _ (lookup_insert_eq _ _ _))).
    unfold ToolModel.set_name.
    rewrite (bind_ok _ _ _ _ _ (update_model_ok _ _ _ _ _ (lookup_insert_eq _ _ _))).
    rewrite insert_insert_eq.
    rewrite (bind_raise _ _ _ _ _ (dict_getitem_missing _ _ _ _ (Hd1 _) Hf)).
    simpl. eauto.
Qed.

(** [from_data], whether it returns or raises, leaves every object of
    the store, the dictionary it reads among them, as it was; the tool
    it returns is a new object. *)
Theorem from_data_keeps_store cls data (h : store) :
  h ⊆ store_after (ToolModel.from_data cls data) h
  /\ (forall t (h' : store),
        ToolModel.from_data cls data h = (Ok t, h') ->
        h !! t = None /\ h' !! data = h !! data).
Proof.
  split.
  - unfold store_after.
    destruct (RobotModel.from_data cls data h) as [[t|e] h1] eqn:Hb.
    + destruct (base_from_data_inv _ _ _ _ _ Hb)
        as (d & m0 & h0 & Hd & Hs & Ht & -> & _).
      assert (Hd0 : h0 !! data = Some (ODict d)) by exact (lookup_weaken _ _ _ _ Hd Hs).
      assert (Hne : t <> data) by (intros ->; rewrite Hd0 in Ht; discriminate).
      destruct (from_data_after_base _ _ _ _ _ _ _ Hb Hd0 Hne) as [o ->].
      etrans; [exact Hs | apply insert_subseteq, Ht].
    + rewrite (from_data_base_raise _ _ _ _ _ Hb). simpl.
      pose proof (base_from_data_grows cls data h) as Hg. rewrite Hb in Hg. exact Hg.
  - intros t h' Hrun.
    destruct (from_data_inv _ _ _ _ _ Hrun)
      as (d & m0 & h0 & fd & f & Hd & Hs & Ht & Hb & _ & _ & _ & ->).
    assert (Hd0 : h0 !! data = Some (ODict d)) by exact (lookup_weaken _ _ _ _ Hd Hs).
    split.
    + exact (lookup_weaken_None _ _ _ Ht Hs).
    + rewrite lookup_insert_ne, Hd0, Hd; [reflexivity|].
      intros ->. rewrite Hd0 in Ht. discriminate.
Qed.

(** When [from_data] returns a tool, the dictionary had a ["frame"]
    entry that [Frame.from_data] read; the tool carries that frame, and
    as link name the ["link_name"] entry as it is, [None] when there is
    no such entry. *)
Theorem from_data_entries_kept cls data (h h' : store) t d :
  ToolModel.from_data cls data h = (Ok t, h') ->
  h !! data = Some (ODict d) ->
  exists m fd f,
    model_at h' t = Some m
    /\ d !! "frame" = Some fd /\ Frame_from_data fd = Ok f
    /\ frame m = Some f
    /\ link_name m = Some (default VNone (d !! "link_name")).
Proof.
  intros Hrun Hd.
  destruct (from_data_inv _ _ _ _ _ Hrun)
    as (d' & m0 & h0 & fd & f & Hd' & _ & _ & _ & _ & Hf & Hfd & ->).
  rewrite Hd in Hd'. injection Hd' as <-.
  eexists _, fd, f. split; [apply model_at_insert|]. repeat split; assumption.
Qed.

(** When the base class accepts the dictionary and [Frame.from_data]
    raises on its ["frame"] entry, [from_data] raises the same
    exception. *)
Theorem from_data_frame_error cls data (h h1 : store) t d fd e :
  h !! data = Some (ODict d) ->
  RobotModel.from_data cls data h = (Ok t, h1) ->
  d !! "frame" = Some fd -> Frame_from_data fd = Raise e ->
  result_of (ToolModel.from_data cls data) h = Raise e.
Proof.
  intros Hd Hb Hf Hfd.
  destruct (base_from_data_inv _ _ _ _ _ Hb)
    as (d' & m0 & h0 & Hd' & Hs & Ht & -> & _).
  rewrite Hd in Hd'. injection Hd' as <-.
  assert (Hd0 : h0 !! data = Some (ODict d)) by exact (lookup_weaken _ _ _ _ Hd Hs).
  assert (Hne : t <> data) by (intros ->; rewrite Hd0 in Ht; discriminate).
  destruct (from_data_bad_frame _ _ _ _ _ _ _ _ _ Hb Hd0 Hne Hf Hfd) as [h' E].
  unfold result_of. rewrite E. reflexivity.
Qed.

(** Whatever its arguments, the constructor makes a new object with
    exactly one link, named ["attached_tool_link"], and no joints; the
    link shows [visual] and collides with the collision mesh when one
    is given, with [visual] itself otherwise; the frame is stored as
    given, and no other object of the store changes. *)
Theorem new_one_link (h : store) visual (f : Frame) collision nm ln :
  exists self m,
    h !! self = None
    /\ ToolModel.new visual f collision nm ln h
       = (Ok self, <[self := OModel ToolModelClass m]> h)
    /\ links m = [mkLink "attached_tool_link" [visual]
                    [match collision with Some c => c | None => visual end]]
    /\ joints m = [] /\ frame m = Some f.
Proof.
  eexists (fresh (dom h)), _. split; [apply alloc_fresh|].
  split; [apply new_run|]. repeat split.
Qed.

End StoreFrame.

(** ** [from_robot_model] and the [data] property *)

Section FromRobotModel.
Context {G : Geometry}.

(** the first three statements of [from_robot_model] *)
Lemma robot_dictionary_run (h : store) robot m ls (f : Frame) ln :
  h !! robot = Some (OModel RobotModelClass m) ->
  links_data h (links m) = Ok ls ->
  (data <- ToolModel.data_of robot ;;
   dict_setitem data "frame" (Frame_data f) ;;
   dict_setitem data "link_name" ln ;;
   ret data) h
  = (Ok (fresh (dom h)),
     <[fresh (dom h) :=
         ODict (<["link_name" := ln]>
                  (<["frame" := Frame_data f]>
                     (RobotModel.tree_dict (name m) ls (joints m))))]> h).
Proof.
  intros Hr Hl.
  assert (Hdata0 : ToolModel.data_of robot h
            = (Ok (fresh (dom h)),
               <[fresh (dom h) :=
                   ODict (RobotModel.tree_dict (name m) ls (joints m))]> h)).
  { rewrite (data_of_robot _ _ _ Hr). apply (base_data_run _ _ _ _ _ Hr Hl). }
  rewrite (bind_ok _ _ _ _ _ Hdata0).
  rewrite (bind_ok _ _ _ _ _ (dict_setitem_ok _ _ _ _ _ (lookup_insert_eq _ _ _))).
  rewrite insert_insert_eq.
  rewrite (bind_ok _ _ _ _ _ (dict_setitem_ok _ _ _ _ _ (lookup_insert_eq _ _ _))).
  rewrite insert_insert_eq. reflexivity.
Qed.

(** The dictionary [from_robot_model] builds before it calls
    [from_data] (lines 70 to 72) is a new one; it holds the frame's data
    under ["frame"] and the given link name under ["link_name"], and
    under every other key what the robot's own dictionary holds. *)
Theorem from_robot_model_dictionary (h : store) robot m ls (f : Frame) ln :
  h !! robot = Some (OModel RobotModelClass m) ->
  links_data h (links m) = Ok ls ->
  exists data (h' : store) d,
    (data <- ToolModel.data_of robot ;;
     dict_setitem data "frame" (Frame_data f) ;;
     dict_setitem data "link_name" ln ;;
     ret data) h = (Ok data, h')
    /\ h !! data = None /\ h ⊆ h' /\ h' !! data = Some (ODict d)
    /\ d !! "frame" = Some (Frame_data f) /\ d !! "link_name" = Some ln
    /\ forall k, k <> "frame" -> k <> "link_name" ->
         d !! k = RobotModel.tree_dict (name m) ls (joints m) !! k.
Proof.
  intros Hr Hl. eexists _, _, _.
  split; [apply (robot_dictionary_run _ _ _ _ _ _ Hr Hl)|].
  split; [apply alloc_fresh|]. split; [apply alloc_extends|].
  split; [apply lookup_insert_eq|].
  split; [|split].
  - rewrite lookup_insert_ne by discriminate. apply lookup_insert_eq.
  - apply lookup_insert_eq.
  - intros k Hk1 Hk2. rewrite !lookup_insert_ne by congruence. reflexivity.
Qed.

(** The tool [from_robot_model] returns is named as the robot when the
    robot's name is truthy, and ["attached_tool"] when it is [None] or
    empty. *)
Theorem from_robot_model_name `{!GeometryLaws G}
    (h : store) cls robot m ls (f : Frame) (ln : value) :
  h !! robot = Some (OModel RobotModelClass m) ->
  links_data h (links m) = Ok ls ->
  valid_frame f ->
  exists t (h' : store) m',
    ToolModel.from_robot_model cls robot f ln h = (Ok t, h')
    /\ model_at h' t = Some m'
    /\ (truthy (name m) = true -> name m' = name m)
    /\ (truthy (name m) = false -> name m' = VStr "attached_tool").
Proof.
  intros Hr Hl Hv.
  destruct (from_data_of_entries cls h (fresh (dom h)) (name m) (links m) ls
              (joints m) f ln (alloc_fresh h) Hl (frame_data_roundtrip f Hv))
    as (t & h4 & lks & Hrun & _).
  eexists t, _, _. split; [|split; [apply model_at_insert|]].
  - unfold ToolModel.from_robot_model.
    pose proof (robot_dictionary_run h robot m ls f ln Hr Hl) as Hd.
    unfold bind in Hd |- *.
    destruct (ToolModel.data_of robot h) as [[d|e] h1]; [|discriminate].
    destruct (dict_setitem d "frame" (Frame_data f) h1) as [[[]|e] h2]; [|discriminate].
    destruct (dict_setitem d "link_name" ln h2) as [[[]|e] h3]; [|discriminate].
    injection Hd as -> ->. exact Hrun.
  - simpl. unfold py_or. split; intros ->; reflexivity.
Qed.

(** Reading the [data] property never returns: on every instance and
    store it raises. *)
Theorem data_never_returns (self : loc) (h : store) :
  exists e, result_of (ToolModel.data self) h = Raise e.
Proof.
  unfold result_of, ToolModel.data, bind at 1.
  destruct (RobotModel.data self h) as [[d|e] h1]; simpl; eauto.
Qed.

(** Given a robot that is itself a [ToolModel], [from_robot_model]
    raises: [robot.data] is then the [data] property of [ToolModel]. *)
Theorem from_robot_model_of_tool (h : store) cls robot m (f : Frame) ln :
  h !! robot = Some (OModel ToolModelClass m) ->
  exists e, result_of (ToolModel.from_robot_model cls robot f ln) h = Raise e.
Proof.
  intros Hr. unfold result_of, ToolModel.from_robot_model, bind at 1.
  unfold ToolModel.data_of at 1. rewrite Hr.
  destruct (data_raises robot h) as (e & h' & ->). simpl. eauto.
Qed.

End FromRobotModel.

(** ** What the conversions mean, in exact arithmetic *)

Module ExactTool.
#[local] Abbreviation frame_of := frame.
Import Exact ExactLaws.
#[local] Existing Instance Exact.geometry.

Local Open Scope Qc_scope.

Lemma from_frame_worldXY : from_frame worldXY = identity.
Proof.
  apply mat_eq; apply vec_eq;
    unfold from_frame, zaxis, worldXY, identity, cross; simpl; ring.
Qed.

Lemma rotation_identity : rotation identity.
Proof.
  split; [exact orthonormal_worldXY|].
  apply vec_eq; unfold identity, cross; simpl; ring.
Qed.

Lemma inverse_identity : inverse identity = identity.
Proof.
  rewrite <- (exact_mul_identity_l (inverse identity)).
  apply rot_mul_inverse_r, rotation_identity.
Qed.

(** towards the flange the transformation is the inverse of the tool's,
    towards the tool tip it is the tool's own *)
Lemma to_flange sf : from_frame_to_frame sf worldXY = inverse (from_frame sf).
Proof.
  unfold from_frame_to_frame. rewrite from_frame_worldXY. apply exact_mul_identity_l.
Qed.

Lemma to_tip sf : from_frame_to_frame worldXY sf = from_frame sf.
Proof.
  unfold from_frame_to_frame.
  rewrite from_frame_worldXY, inverse_identity. apply exact_mul_identity_r.
Qed.

Lemma convert_to_flange sf f :
  orthonormal sf -> orthonormal f ->
  from_frame (ToolModel.convert (from_frame_to_frame sf worldXY) f)
  = mul (from_frame f) (inverse (from_frame sf)).
Proof.
  intros Hsf Hf. unfold ToolModel.convert; simpl.
  rewrite exact_transformation_of_frame.
  - rewrite to_flange. reflexivity.
  - apply rotation_mul; [apply rotation_from_frame, Hf|].
    apply rotation_from_frame_to_frame; [exact Hsf | exact orthonormal_worldXY].
Qed.

Lemma convert_to_tip sf f :
  orthonormal sf -> orthonormal f ->
  from_frame (ToolModel.convert (from_frame_to_frame worldXY sf) f)
  = mul (from_frame f) (from_frame sf).
Proof.
  intros Hsf Hf. unfold ToolModel.convert; simpl.
  rewrite exact_transformation_of_frame.
  - rewrite to_tip. reflexivity.
  - apply rotation_mul; [apply rotation_from_frame, Hf|].
    apply rotation_from_frame_to_frame; [exact orthonormal_worldXY | exact Hsf].
Qed.

Lemma flange_then_tool sf f :
  orthonormal sf -> orthonormal f ->
  mul (from_frame (ToolModel.convert (from_frame_to_frame sf worldXY) f))
      (from_frame sf)
  = from_frame f.
Proof.
  intros Hsf Hf. rewrite (convert_to_flange sf f Hsf Hf).
  rewrite exact_mul_assoc, (rot_mul_inverse_l _ (rotation_from_frame sf Hsf)).
  apply exact_mul_identity_r.
Qed.

(** The flange frame [from_tcf_to_t0cf] returns for a tool-tip frame
    [f] is the one in which the tool's frame lands on [f]: its
    transformation times the tool's is that of [f].  The tool-tip frame
    [from_t0cf_to_tcf] returns for a flange frame [f] has the
    transformation of [f] times the tool's. *)
Theorem conversions_place_tool (h : store) self c m sf (X : list frame) :
  h !! self = Some (OModel c m) -> frame_of m = Some sf ->
  orthonormal sf -> Forall orthonormal X ->
  (exists Y, ToolModel.from_tcf_to_t0cf self X h = (Ok Y, h)
     /\ Forall2 (fun f g => mul (from_frame g) (from_frame sf) = from_frame f) X Y)
  /\ (exists Y, ToolModel.from_t0cf_to_tcf self X h = (Ok Y, h)
     /\ Forall2 (fun f g => from_frame g = mul (from_frame f) (from_frame sf)) X Y).
Proof.
  intros Hs Hf Hsf HX. split; eexists; (split; [|]).
  - apply (from_tcf_to_t0cf_ok _ _ _ _ _ _ Hs Hf).
  - induction HX as [|f X Hfv HX IH]; simpl; constructor; [|exact IH].
    exact (flange_then_tool sf f Hsf Hfv).
  - apply (from_t0cf_to_tcf_ok _ _ _ _ _ _ Hs Hf).
  - induction HX as [|f X Hfv HX IH]; simpl; constructor; [|exact IH].
    apply (convert_to_tip sf f Hsf Hfv).
Qed.

(** The conversions return frames with orthonormal axes when the tool's
    frame and the frames given have orthonormal axes. *)
Theorem conversions_keep_orthonormal (h : store) self c m sf (X : list frame) :
  h !! self = Some (OModel c m) -> frame_of m = Some sf ->
  orthonormal sf -> Forall orthonormal X ->
  (exists Y, ToolModel.from_tcf_to_t0cf self X h = (Ok Y, h) /\ Forall orthonormal Y)
  /\ (exists Y, ToolModel.from_t0cf_to_tcf self X h = (Ok Y, h) /\ Forall orthonormal Y).
Proof.
  intros Hs Hf Hsf HX. split; eexists; (split; [|]).
  - apply (from_tcf_to_t0cf_ok _ _ _ _ _ _ Hs Hf).
  - induction HX as [|f X Hfv HX IH]; simpl; constructor; [|exact IH].
    apply rotation_mul; [apply rotation_from_frame, Hfv|].
    apply rotation_from_frame_to_frame; [exact Hsf | exact orthonormal_worldXY].
  - apply (from_t0cf_to_tcf_ok _ _ _ _ _ _ Hs Hf).
  - induction HX as [|f X Hfv HX IH]; simpl; constructor; [|exact IH].
    apply rotation_mul; [apply rotation_from_frame, Hfv|].
    apply rotation_from_frame_to_frame; [exact orthonormal_worldXY | exact Hsf].
Qed.

(** With the tool tip at the tool's own frame the flange is at the
    world frame, and with the flange at the world frame the tool tip is
    at the tool's frame. *)
Theorem conversions_of_tool_frame (h : store) self c m sf :
  h !! self = Some (OModel c m) -> frame_of m = Some sf ->
  orthonormal sf ->
  ToolModel.from_tcf_to_t0cf self [sf] h = (Ok [worldXY], h)
  /\ ToolModel.from_t0cf_to_tcf self [worldXY] h = (Ok [sf], h).
Proof.
  intros Hs Hf Hsf.
  rewrite (from_tcf_to_t0cf_ok _ _ _ _ _ _ Hs Hf).
  rewrite (from_t0cf_to_tcf_ok _ _ _ _ _ _ Hs Hf).
  assert (H1 : ToolModel.convert (from_frame_to_frame sf worldXY) sf = worldXY).
  { unfold ToolModel.convert; simpl.
    rewrite to_flange, (rot_mul_inverse_r _ (rotation_from_frame sf Hsf)).
    reflexivity. }
  assert (H2 : ToolModel.convert (from_frame_to_frame worldXY sf) worldXY = sf).
  { unfold ToolModel.convert; simpl.
    rewrite to_tip, from_frame_worldXY, exact_mul_identity_l.
    apply exact_frame_of_transformation. }
  simpl. simpl in H1, H2. rewrite H1, H2. split; reflexivity.
Qed.

(** A tool whose frame is the world frame converts every list of
    frames to itself, in both directions. *)
Theorem conversions_of_world_tool (h : store) self c m (X : list frame) :
  h !! self = Some (OModel c m) -> frame_of m = Some worldXY ->
  ToolModel.from_tcf_to_t0cf self X h = (Ok X, h)
  /\ ToolModel.from_t0cf_to_tcf self X h = (Ok X, h).
Proof.
  intros Hs Hf.
  rewrite (from_tcf_to_t0cf_ok _ _ _ _ _ _ Hs Hf).
  rewrite (from_t0cf_to_tcf_ok _ _ _ _ _ _ Hs Hf).
  assert (Hid : forall f : frame,
            ToolModel.convert (from_frame_to_frame worldXY worldXY) f = f).
  { intros f. unfold ToolModel.convert; simpl.
    rewrite to_tip, from_frame_worldXY, exact_mul_identity_r.
    apply exact_frame_of_transformation. }
  simpl. rewrite (map_ext _ id) by exact Hid. rewrite map_id. split; reflexivity.
Qed.

End ExactTool.

(** ** The further properties on the sample objects *)

Module MoreOnSamples.
Import Sample.
#[local] Existing Instance Exact.geometry.
#[local] Existing Instance ExactLaws.laws.

Lemma from_data_keeps_store_witness :
  frame_only_store !! 2%positive = None
  /\ store_after (ToolModel.from_data ToolModelClass dict) frame_only_store !! dict
     = frame_only_store !! dict.
Proof.
  apply (proj2 (from_data_keeps_store ToolModelClass dict frame_only_store)
           2%positive
           (store_after (ToolModel.from_data ToolModelClass dict) frame_only_store)).
  reflexivity.
Defined.

Lemma from_data_entries_kept_witness :
  exists m fd f,
    model_at (store_after (ToolModel.from_data ToolModelClass dict) frame_only_store)
             2%positive = Some m
    /\ ({[ "frame" := Exact.frame_data tool_frame ]} : gmap string value) !! "frame"
       = Some fd
    /\ Exact.frame_from_data fd = Ok f
    /\ frame m = Some f
    /\ link_name m = Some VNone.
Proof.
  destruct (from_data_entries_kept ToolModelClass dict frame_only_store
              (store_after (ToolModel.from_data ToolModelClass dict) frame_only_store)
              2%positive {[ "frame" := Exact.frame_data tool_frame ]}
              eq_refl eq_refl)
    as (m & fd & f & Hm & Hfd & Hf & Hfr & Hln).
  exists m, fd, f. repeat split; assumption.
Defined.

Lemma from_data_frame_error_witness :
  result_of (ToolModel.from_data ToolModelClass dict)
            ({[ dict := ODict {[ "frame" := VNone ]} ]} : store)
  = Raise TypeError.
Proof.
  apply (from_data_frame_error ToolModelClass dict
           ({[ dict := ODict {[ "frame" := VNone ]} ]} : store)
           (store_after (RobotModel.from_data ToolModelClass dict)
              ({[ dict := ODict {[ "frame" := VNone ]} ]} : store))
           2%positive {[ "frame" := VNone ]} VNone TypeError);
    reflexivity.
Defined.

Lemma from_robot_model_dictionary_witness :
  exists data (h' : store) d,
    (data <- ToolModel.data_of robot ;;
     dict_setitem data "frame" (Exact.frame_data tool_frame) ;;
     dict_setitem data "link_name" (VStr "tool0") ;;
     ret data) robot_store = (Ok data, h')
    /\ h' !! data = Some (ODict d)
    /\ d !! "frame" = Some (Exact.frame_data tool_frame)
    /\ d !! "link_name" = Some (VStr "tool0").
Proof.
  destruct (from_robot_model_dictionary robot_store robot robot_model
              [VDict (RobotModel.link_dict "base" [VStr "cone"] [VStr "cone"])]
              tool_frame (VStr "tool0") eq_refl eq_refl)
    as (data & h' & d & Hrun & _ & _ & Hd & Hf & Hl & _).
  exists data, h', d. repeat split; assumption.
Defined.

Lemma from_robot_model_name_witness :
  exists t (h' : store) m',
    ToolModel.from_robot_model ToolModelClass robot tool_frame VNone robot_store
    = (Ok t, h')
    /\ model_at h' t = Some m' /\ name m' = VStr "robot".
Proof.
  destruct (from_robot_model_name robot_store ToolModelClass robot robot_model
              [VDict (RobotModel.link_dict "base" [VStr "cone"] [VStr "cone"])]
              tool_frame VNone eq_refl eq_refl OnSamples.tool_frame_valid)
    as (t & h' & m' & Hrun & Hm & Hn & _).
  exists t, h', m'. split; [exact Hrun|]. split; [exact Hm|]. exact (Hn eq_refl).
Defined.

Lemma from_robot_model_of_tool_witness :
  exists e,
    result_of (ToolModel.from_robot_model ToolModelClass tool tool_frame VNone)
              tool_store = Raise e.
Proof.
  apply (from_robot_model_of_tool tool_store ToolModelClass tool tool_model
           tool_frame VNone eq_refl).
Defined.

Lemma conversions_place_tool_witness :
  exists Y,
    ToolModel.from_tcf_to_t0cf tool [turned_frame] tool_store = (Ok Y, tool_store)
    /\ Forall2 (fun f g => Exact.mul (Exact.from_frame g) (Exact.from_frame tool_frame)
                           = Exact.from_frame f) [turned_frame] Y.
Proof.
  apply (proj1 (ExactTool.conversions_place_tool tool_store tool ToolModelClass
                  tool_model tool_frame [turned_frame] eq_refl eq_refl
                  OnSamples.tool_frame_valid
                  (Forall_cons_2 _ _ _ OnSamples.turned_frame_valid (Forall_nil_2 _)))).
Defined.

Lemma conversions_keep_orthonormal_witness :
  exists Y,
    ToolModel.from_tcf_to_t0cf tool [turned_frame] tool_store = (Ok Y, tool_store)
    /\ Forall Exact.orthonormal Y.
Proof.
  apply (proj1 (ExactTool.conversions_keep_orthonormal tool_store tool ToolModelClass
                  tool_model tool_frame [turned_frame] eq_refl eq_refl
                  OnSamples.tool_frame_valid
                  (Forall_cons_2 _ _ _ OnSamples.turned_frame_valid (Forall_nil_2 _)))).
Defined.

Lemma conversions_of_tool_frame_witness :
  ToolModel.from_tcf_to_t0cf tool [tool_frame] tool_store
  = (Ok [Exact.worldXY], tool_store)
  /\ ToolModel.from_t0cf_to_tcf tool [Exact.worldXY] tool_store
     = (Ok [tool_frame], tool_store).
Proof.
  apply (ExactTool.conversions_of_tool_frame tool_store tool ToolModelClass
           tool_model tool_frame eq_refl eq_refl OnSamples.tool_frame_valid).
Defined.

Lemma conversions_of_world_tool_witness :
  ToolModel.from_tcf_to_t0cf tool [turned_frame]
    (<[ tool := OModel ToolModelClass
          (@mkModel Exact.geometry (VStr "flange") [] [] (Some Exact.worldXY)
             (Some VNone)) ]> mesh_store)
  = (Ok [turned_frame],
     <[ tool := OModel ToolModelClass
          (@mkModel Exact.geometry (VStr "flange") [] [] (Some Exact.worldXY)
             (Some VNone)) ]> mesh_store).
Proof.
  apply (fun H1 H2 =>
           proj1 (ExactTool.conversions_of_world_tool
                    (<[ tool := OModel ToolModelClass
                          (@mkModel Exact.geometry (VStr "flange") [] []
                             (Some Exact.worldXY) (Some VNone)) ]> mesh_store)
                    tool ToolModelClass
                    (@mkModel Exact.geometry (VStr "flange") [] []
                       (Some Exact.worldXY) (Some VNone))
                    [turned_frame] H1 H2));
    reflexivity.
Defined.

End MoreOnSamples.

(** ** Where the code departs from what is said of it *)

Module Departures.
Import Sample.
#[local] Existing Instance Exact.geometry.


(** C2, on the tool of the docstrings: [from_data(tool.data)] yields no
    tool, because reading [tool.data] raises the attribute error for
    [fget] before [from_data] is reached. *)
Theorem from_data_of_data_raises :
  result_of (x <- ToolModel.new mesh tool_frame None None None ;;
             d <- ToolModel.data x ;;
             ToolModel.from_data ToolModelClass d) mesh_store
  = Raise (AttributeError "fget").
Proof. reflexivity. Qed.

(** C5, on the tool of the docstrings passed as the robot:
    [from_robot_model] yields no tool, because [robot.data] is then the
    [data] property of [ToolModel], which raises the attribute error
    for [fget]. *)
Theorem from_robot_model_of_new_tool_raises :
  result_of (x <- ToolModel.new mesh tool_frame None None None ;;
             ToolModel.from_robot_model ToolModelClass x tool_frame VNone) mesh_store
  = Raise (AttributeError "fget").
Proof. reflexivity. Qed.

End Departures.
